(** * Extractive summarizer of [app.py]: shallow embedding and verification

    The development follows [class RAGSummarizer] of [app.py]: the session
    state ([documents], [processed_text], [stop_words]), [process_documents],
    [generate_summary] with its four strategies, [ask_question], and the
    caller [main].

    A Python [str] is modelled as the list of its Unicode code points.  The
    built-ins whose meaning is fixed by a few lines ([str.split],
    [str.strip], [str.join], [in] on strings, [str.endswith], [len],
    [list.sort], [collections.Counter]) are modelled in module [Py]; the
    whitespace characters are those of [str.isspace].  The two built-ins that
    rest on the Unicode character database, [str.lower] and the letters of
    [str.isalpha], and the NLTK tokenizers [word_tokenize] and
    [sent_tokenize] are taken as variables: the program is embedded in a
    Section over them, so every theorem holds whatever they are.

    What a file yields when it is loaded is part of the input
    ([UploadedFile]); a load that raises skips the file, as the handler in
    the loop of [process_documents] does.  The handlers around the bodies of
    [generate_summary] and [ask_question] guard calls that are total
    functions here, and the status messages sent to the user interface are
    not part of the model. *)

From Stdlib Require Import String Ascii List Arith NArith Bool Lia.
From Stdlib Require Import Sorted Permutation DecimalString.
Import ListNotations.
Open Scope list_scope.

(* ================================================================== *)
(** ** Text *)
(* ================================================================== *)

(** A character is a Unicode code point, a text the list of its
    characters. *)
Definition char : Type := N.
Definition text : Type := list char.

(** The text of a literal written with ASCII characters. *)
Definition T (s : string) : text :=
  map N_of_ascii (list_ascii_of_string s).

(** [a == b] on texts. *)
Fixpoint eqb_str (a b : text) : bool :=
  match a, b with
  | [], [] => true
  | x :: a', y :: b' => N.eqb x y && eqb_str a' b'
  | _, _ => false
  end.

Definition str_dec : forall a b : text, {a = b} + {a <> b} :=
  list_eq_dec N.eq_dec.

(** The space, the newline written [\n] in the source, and the bullet
    followed by a space with which list items are printed. *)
Definition space : text := [32%N].
Definition nl : text := [10%N].
Definition bullet : text := [8226%N; 32%N].



Definition ascii_letter (c : char) : bool :=
  ((65 <=? c)%N && (c <=? 90)%N) || ((97 <=? c)%N && (c <=? 122)%N).


(* ================================================================== *)
(** ** Python built-ins used by the program *)
(* ================================================================== *)

Module Py.

(** [c.isspace()]: the whitespace characters of Unicode, on which
    [str.split()] and [str.strip()] work: TAB to CR, FS to US and the space,
    NEL, the no-break space, the Ogham space mark, EN QUAD to HAIR SPACE,
    the line and paragraph separators, the narrow no-break space, the
    medium mathematical space and the ideographic space. *)
Definition isspace (c : char) : bool :=
  ((9 <=? c)%N && (c <=? 13)%N) || ((28 <=? c)%N && (c <=? 32)%N)
  || (c =? 133)%N || (c =? 160)%N || (c =? 5760)%N
  || ((8192 <=? c)%N && (c <=? 8202)%N)
  || (c =? 8232)%N || (c =? 8233)%N || (c =? 8239)%N || (c =? 8287)%N
  || (c =? 12288)%N.

Fixpoint forallb_str (p : char -> bool) (s : text) : bool :=
  match s with
  | [] => true
  | c :: s' => p c && forallb_str p s'
  end.

Fixpoint existsb_str (p : char -> bool) (s : text) : bool :=
  match s with
  | [] => false
  | c :: s' => p c || existsb_str p s'
  end.

(** Truth value of a string and of a list: empty is false. *)
Definition truthy (s : text) : bool :=
  match s with [] => false | _ => true end.

Definition nonempty {A : Type} (l : list A) : bool :=
  match l with [] => false | _ => true end.

(** [s.startswith(p)]: [p] is a prefix of [s]. *)
Fixpoint starts (p s : text) : bool :=
  match p, s with
  | [], _ => true
  | _ :: _, [] => false
  | a :: p', b :: s' => N.eqb a b && starts p' s'
  end.

(** [needle in hay] on strings: substring containment. *)
Fixpoint contains (needle hay : text) : bool :=
  starts needle hay ||
  match hay with
  | [] => false
  | _ :: hay' => contains needle hay'
  end.

(** [s.endswith(suffix)] *)
Fixpoint endswith (s suffix : text) : bool :=
  eqb_str s suffix ||
  match s with
  | [] => false
  | _ :: s' => endswith s' suffix
  end.

(** [x in xs] for a list or set of strings. *)
Definition mem (x : text) (xs : list text) : bool :=
  existsb (eqb_str x) xs.

(** Puts a character in front of the first word of a list of words. *)
Definition cons_head (c : char) (ws : list text) : list text :=
  match ws with
  | [] => [[c]]
  | w :: ws' => (c :: w) :: ws'
  end.

(** [s.split()]: the maximal runs of non-whitespace characters. *)
Fixpoint split (s : text) : list text :=
  match s with
  | [] => []
  | c :: s' =>
      if isspace c then split s'
      else
        match s' with
        | [] => [[c]]
        | c' :: _ =>
            if isspace c' then [c] :: split s'
            else cons_head c (split s')
        end
  end.

(** [sep.join(parts)] *)
Fixpoint join (sep : text) (parts : list text) : text :=
  match parts with
  | [] => []
  | [p] => p
  | p :: rest => p ++ sep ++ join sep rest
  end.

Fixpoint lstrip (s : text) : text :=
  match s with
  | [] => []
  | c :: s' => if isspace c then lstrip s' else s
  end.

Fixpoint rstrip (s : text) : text :=
  match s with
  | [] => []
  | c :: s' =>
      match rstrip s' with
      | [] => if isspace c then [] else [c]
      | r => c :: r
      end
  end.

(** [s.strip()] *)
Definition strip (s : text) : text := rstrip (lstrip s).

(** [str(n)] and [f"{n}"] for a non-negative integer. *)
Definition str (n : nat) : text :=
  T (NilEmpty.string_of_uint (Nat.to_uint n)).

(** [sum(1 for x in xs if p x)] *)
Definition count_if {A : Type} (p : A -> bool) (xs : list A) : nat :=
  length (filter p xs).

(** [enumerate(xs, start)] *)
Definition enumerate {A : Type} (xs : list A) (start : nat) : list (nat * A) :=
  combine (seq start (length xs)) xs.

(** [xs[-n:]] for [n > 0]: the last [n] elements, all of them when there
    are fewer. *)
Definition last_n {A : Type} (n : nat) (xs : list A) : list A :=
  skipn (length xs - n) xs.

(** Stable sort by decreasing key, the meaning of
    [xs.sort(reverse=True, key=...)] and of
    [sorted(xs, key=..., reverse=True)]: elements with equal keys keep their
    original order.  [insert_desc x l] puts [x], which stood before every
    element of [l], in front of the first element whose key is not larger. *)
Section StableSort.
Context {A : Type} (key : A -> nat).

Fixpoint insert_desc (x : A) (l : list A) : list A :=
  match l with
  | [] => [x]
  | y :: l' =>
      if (key x <? key y)%nat then y :: insert_desc x l' else x :: y :: l'
  end.

Fixpoint sort_desc (l : list A) : list A :=
  match l with
  | [] => []
  | x :: l' => insert_desc x (sort_desc l')
  end.
End StableSort.

(** [collections.Counter]: a dict from element to count that keeps its keys
    in insertion order.  [incr w d] is [d[w] += 1]. *)
Fixpoint incr (w : text) (d : list (text * nat)) : list (text * nat) :=
  match d with
  | [] => [(w, 1)]
  | (k, c) :: d' =>
      if eqb_str k w then (k, S c) :: d' else (k, c) :: incr w d'
  end.

Definition Counter (words : list text) : list (text * nat) :=
  fold_left (fun d w => incr w d) words [].

(** [counter.most_common(n)]: [heapq.nlargest(n, items, key=count)], which
    is [sorted(items, key=count, reverse=True)[:n]]. *)
Definition most_common (n : nat) (d : list (text * nat)) : list (text * nat) :=
  firstn n (sort_desc snd d).

End Py.

(* ================================================================== *)
(** ** The program: [class RAGSummarizer] *)
(* ================================================================== *)

(** Result of a call that may raise an exception. *)
Inductive outcome (A : Type) : Type :=
| Returned (a : A)
| Raised.
Arguments Returned {A} a.
Arguments Raised {A}.

(** An uploaded file as [process_documents] sees it: its name, what the
    PDF loader yields for it (the [page_content] of each page of
    [PyPDFLoader(tmp_path).load()]) and what
    [uploaded_file.read().decode('utf-8')] yields; either may raise. *)
Record UploadedFile : Type := {
  name : text;
  pdf_pages : outcome (list text);
  text_content : outcome text
}.

(** The fields of [self] the summarizer reads and writes. *)
Record RAGSummarizer : Type := {
  documents : list text;
  processed_text : text;
  stop_words : list text
}.

Section Program.

(** NLTK's tokenizers. *)
Variable word_tokenize : text -> list text.
Variable sent_tokenize : text -> list text.

(** [s.lower()], and the letters: [c.isalpha()] for a character [c]. *)
Variable lower : text -> text.
Variable isalpha_char : char -> bool.

(** [s.isalpha()]: at least one character and all of them letters. *)
Definition isalpha (s : text) : bool :=
  match s with
  | [] => false
  | _ => Py.forallb_str isalpha_char s
  end.

(** [' '.join(sentence.strip().split())], the cleaning step applied to every
    sentence that is printed. *)
Definition clean_sentence (sentence : text) : text :=
  Py.join space (Py.split (Py.strip sentence)).

(** The scoring expression of [_extract_key_points] and [ask_question]:
    [sum(1 for word in words if word.lower() in sentence.lower())]. *)
Definition score (words : list text) (sentence : text) : nat :=
  Py.count_if (fun word => Py.contains (lower word) (lower sentence)) words.

(** The scoring expression of [_extract_methodology] and
    [_extract_findings]:
    [sum(1 for keyword in keywords if keyword in sentence.lower())]. *)
Definition vocabulary_score (keywords : list text) (sentence : text) : nat :=
  Py.count_if (fun keyword => Py.contains keyword (lower sentence)) keywords.

(** The loop and the sort shared by [_extract_key_points] (lines 158-165,
    [keep] is [score >= 2]) and [ask_question] (lines 263-270, [keep] is
    [score > 0]): every sentence is scored, the kept ones are appended as
    [(score, sentence)], and the list is sorted with
    [sort(reverse=True, key=lambda x: x[0])]. *)
Definition rank_sentences (words : list text) (keep : nat -> bool)
    (sentences : list text) : list (nat * text) :=
  Py.sort_desc fst
    (fold_left
       (fun acc sentence =>
          let score := score words sentence in
          if keep score then (acc ++ [(score, sentence)]) else acc)
       sentences []).

(** The loop of [_extract_methodology] and [_extract_findings]: the
    sentences with [score >= 1] are appended, nothing is sorted. *)
Definition vocabulary_sentences (keywords : list text)
    (sentences : list text) : list text :=
  fold_left
    (fun acc sentence =>
       let score := vocabulary_score keywords sentence in
       if (1 <=? score)%nat then (acc ++ [sentence]) else acc)
    sentences [].

Definition method_keywords : list text :=
  [T "method"; T "approach"; T "technique"; T "procedure"; T "analysis";
   T "experiment"; T "study"; T "research"; T "data"; T "sample"].

Definition finding_keywords : list text :=
  [T "result"; T "finding"; T "conclusion"; T "outcome"; T "evidence";
   T "showed"; T "demonstrated"; T "found"; T "discovered"; T "revealed"].

(** The texts one iteration of the loop of [process_documents] appends to
    [all_text]; an exception skips the file. *)
Definition read_file (uploaded_file : UploadedFile) : list text :=
  if Py.endswith (name uploaded_file) (T ".pdf") then
    match pdf_pages uploaded_file with
    | Returned pages => pages
    | Raised => []
    end
  else
    match text_content uploaded_file with
    | Returned text_content => [text_content]
    | Raised => []
    end.

Definition process_documents (self : RAGSummarizer)
    (uploaded_files : list UploadedFile) : bool * RAGSummarizer :=
  let all_text :=
    fold_left (fun all_text f => (all_text ++ read_file f))
              uploaded_files [] in
  if negb (Py.nonempty all_text) then (false, self)
  else
    let combined_text := Py.join (nl ++ nl) all_text in
    let processed_text := Py.join space (Py.split combined_text) in
    let raw_sentences := sent_tokenize processed_text in
    (true,
     {| documents :=
          map (fun sentence => Py.join space (Py.split sentence))
              (filter (fun sentence => Py.truthy (Py.strip sentence))
                      raw_sentences);
        processed_text := processed_text;
        stop_words := stop_words self |}).

(** [top_words] of [_extract_key_points] (lines 151-155). *)
Definition top_words (self : RAGSummarizer) : list text :=
  let words := word_tokenize (lower (processed_text self)) in
  let words :=
    filter (fun w => isalpha w && negb (Py.mem w (stop_words self))
                     && (3 <? List.length w)%nat) words in
  let word_freq := Py.Counter words in
  map fst (Py.most_common 10 word_freq).

Definition _extract_key_points (self : RAGSummarizer) : text :=
  let key_sentences :=
    rank_sentences (top_words self) (fun score => (2 <=? score)%nat)
                   (documents self) in
  fold_left
    (fun summary '(i, (_, sentence)) =>
       summary ++ Py.str i ++ T ". " ++ clean_sentence sentence ++ nl ++ nl)
    (Py.enumerate (firstn 5 key_sentences) 1)
    (T "**KEY POINTS:**" ++ nl ++ nl).

Definition _extract_methodology (self : RAGSummarizer) : text :=
  let method_sentences :=
    vocabulary_sentences method_keywords (documents self) in
  if negb (Py.nonempty method_sentences) then
    (T "No clear methodology sections found in the documents.")
  else
    fold_left
      (fun summary '(i, sentence) =>
         summary ++ bullet ++ clean_sentence sentence ++ nl ++ nl)
      (Py.enumerate (firstn 7 method_sentences) 1)
      (T "**METHODOLOGY:**" ++ nl ++ nl).

Definition _extract_findings (self : RAGSummarizer) : text :=
  let finding_sentences :=
    vocabulary_sentences finding_keywords (documents self) in
  if negb (Py.nonempty finding_sentences) then
    (T "No clear findings sections found in the documents.")
  else
    fold_left
      (fun summary '(i, sentence) =>
         summary ++ bullet ++ clean_sentence sentence ++ nl ++ nl)
      (Py.enumerate (firstn 7 finding_sentences) 1)
      (T "**FINDINGS & RESULTS:**" ++ nl ++ nl).

(** [important_sentences] of [_extract_comprehensive] (lines 226-232). *)
Definition important_sentences (self : RAGSummarizer) : list text :=
  let total_sentences := List.length (documents self) in
  if (0 <? total_sentences)%nat then
    (firstn 2 (documents self)
     ++ (if (4 <? total_sentences)%nat then Py.last_n 2 (documents self)
         else []))
  else [].

Definition _extract_comprehensive (self : RAGSummarizer) : text :=
  let total_sentences := List.length (documents self) in
  let total_words := List.length (word_tokenize (processed_text self)) in
  let key_points := _extract_key_points self in
  let summary := T "**COMPREHENSIVE SUMMARY**" ++ nl ++ nl in
  let summary :=
    summary ++ T "*Document Statistics: " ++ Py.str total_sentences
            ++ T " sentences, " ++ Py.str total_words ++ T " words*" ++ nl ++
                   nl in
  let summary := summary ++ T "**Overview:**" ++ nl in
  let summary :=
    fold_left
      (fun summary sentence =>
         summary ++ bullet ++ clean_sentence sentence ++ nl ++ nl)
      (firstn 3 (important_sentences self)) summary in
  summary ++ key_points.

Definition generate_summary (self : RAGSummarizer) (summary_type : text)
    : text :=
  if negb (Py.nonempty (documents self)) then T "No documents processed yet."
  else if eqb_str summary_type (T "key_points") then _extract_key_points self
  else if eqb_str summary_type (T "methodology") then _extract_methodology self
  else if eqb_str summary_type (T "findings") then _extract_findings self
  else _extract_comprehensive self.

(** [question_words] of [ask_question] (lines 256-257). *)
Definition question_words (self : RAGSummarizer) (question : text)
    : list text :=
  filter (fun w => isalpha w && negb (Py.mem w (stop_words self)))
         (word_tokenize (lower question)).

Definition ask_question (self : RAGSummarizer) (question : text) : text :=
  if negb (Py.nonempty (documents self)) then T "No documents processed yet."
  else
    let question_words := question_words self question in
    if negb (Py.nonempty question_words) then
      (T "Please ask a more specific question with keywords.")
    else
      let relevant_sentences :=
        rank_sentences question_words (fun score => (0 <? score)%nat)
                       (documents self) in
      if negb (Py.nonempty relevant_sentences) then
        (T "No relevant information found for your question.")
      else
        let answer := T "**Answer to: " ++ question ++ T "**" ++ nl ++ nl in
        let answer := answer ++ T "Based on the document content:" ++ nl ++ nl
            in
        fold_left
          (fun answer '(i, (_, sentence)) =>
             answer ++ Py.str i ++ T ". " ++ clean_sentence sentence ++ nl ++
                 nl)
          (Py.enumerate (firstn 5 relevant_sentences) 1)
          answer.

End Program.

(* ================================================================== *)
(** ** Vocabulary of the statements *)
(* ================================================================== *)

(** The items of a numbered list, counted from [i]: each item is printed as
    [<number>. <item>] followed by an empty line. *)
Fixpoint numbered_from (i : nat) (items : list text) : text :=
  match items with
  | [] => []
  | item :: rest =>
      Py.str i ++ T ". " ++ item ++ nl ++ nl ++ numbered_from (S i) rest
  end.

Definition numbered_list (items : list text) : text :=
  numbered_from 1 items.

(** The items of a bulleted list: each item is printed after a bullet and
    followed by an empty line. *)
Fixpoint bulleted_list (items : list text) : text :=
  match items with
  | [] => []
  | item :: rest => bullet ++ item ++ nl ++ nl ++ bulleted_list rest
  end.

(** The scored sentences that reach the threshold, in corpus order. *)
Definition retained (lower : text -> text) (words : list text)
    (minScore : nat) (sentences : list text) : list (nat * text) :=
  filter (fun p => (minScore <=? fst p)%nat)
         (map (fun sentence => (score lower words sentence, sentence))
              sentences).

(** The frequency model of [_extract_key_points]:
    [[word for word, _ in Counter(tokens).most_common(n)]]. *)
Definition top_terms (tokens : list text) (n : nat) : list text :=
  map fst (Py.most_common n (Py.Counter tokens)).

(** All distinct tokens, most frequent first: [most_common()] without a
    bound. *)
Definition ranking (tokens : list text) : list text :=
  map fst (Py.sort_desc snd (Py.Counter tokens)).

(** The tokens [_extract_key_points] counts: alphabetic, not a stop word,
    longer than three characters. *)
Definition frequency_tokens (word_tokenize : text -> list text)
    (lower : text -> text) (isalpha_char : char -> bool)
    (self : RAGSummarizer) : list text :=
  filter (fun w => isalpha isalpha_char w && negb (Py.mem w (stop_words self))
                   && (3 <? List.length w)%nat)
         (word_tokenize (lower (processed_text self))).

(** [first_before tokens x y]: the token [x] is met in [tokens] before the
    first occurrence of the token [y]. *)
Definition first_before (tokens : list text) (x y : text) : Prop :=
  x <> y /\
  exists pre post, tokens = (pre ++ x :: post) /\ ~ In y pre.

(** [ranks_before tokens x y]: [x] occurs more often than [y], or as often
    and was met first. *)
Definition ranks_before (tokens : list text) (x y : text) : Prop :=
  count_occ str_dec tokens y < count_occ str_dec tokens x \/
  (count_occ str_dec tokens x = count_occ str_dec tokens y /\
   first_before tokens x y).

(** [tie_order key R a b]: [a] has the larger key, or the same key and
    [a] stands in relation [R] to [b]. *)
Definition tie_order {A : Type} (key : A -> nat) (R : A -> A -> Prop)
    (a b : A) : Prop :=
  key b < key a \/ (key a = key b /\ R a b).

(** A keyword set with one more keyword. *)
Definition add_keyword (k : text) (keywords : list text) : list text :=
  if Py.mem k keywords then keywords else (keywords ++ [k]).

(** The keyword set of a list of tokens: every token once, in the order of
    first occurrence. *)
Fixpoint keyword_set (tokens : list text) : list text :=
  match tokens with
  | [] => []
  | t :: rest => t :: filter (fun u => negb (eqb_str u t)) (keyword_set rest)
  end.

(** A word: a non-empty string without whitespace. *)
Definition is_word (w : text) : Prop :=
  w <> [] /\
  Py.forallb_str (fun c => negb (Py.isspace c)) w = true.

(** A string is whitespace-normalized when it has no leading or trailing
    whitespace and its words are separated by exactly one space. *)
Definition normalized (s : text) : Prop :=
  Py.join space (Py.split s) = s.

(* ================================================================== *)
(** ** Sample instances of the external data, used to run the program *)
(* ================================================================== *)

Module Sample.

Definition is_punct (c : char) : bool :=
  Py.mem [c] [T "."; T ","; T "?"; T "!"; T ";"; T ":"].

(** Surrounds every punctuation mark with spaces. *)
Fixpoint detach (s : text) : text :=
  match s with
  | [] => []
  | c :: s' =>
      if is_punct c then 32%N :: c :: 32%N :: detach s'
      else c :: detach s'
  end.

(** A word tokenizer for plain sentences: whitespace separates tokens and
    a punctuation mark is a token of its own, as NLTK's [word_tokenize]
    does on such text. *)
Definition word_tokenize (input : text) : list text :=
  Py.split (detach input).

Definition is_stop (c : char) : bool :=
  Py.mem [c] [T "."; T "?"; T "!"].

(** A sentence tokenizer for plain text: a sentence ends at a full stop,
    question mark or exclamation mark that is followed by a space. *)
Fixpoint sentences_from (current : text) (input : text) : list text :=
  match input with
  | [] =>
      match current with [] => [] | _ => [current] end
  | c :: input' =>
      match input' with
      | c' :: rest =>
          if is_stop c && (c' =? 32)%N
          then (current ++ [c]) :: sentences_from [] rest
          else sentences_from (current ++ [c]) input'
      | [] => sentences_from (current ++ [c]) input'
      end
  end.

Definition sent_tokenize (input : text) : list text :=
  sentences_from [] input.

(** [str.lower] on text whose code points are below 256, which is all the
    samples use: the capital letters A to Z and U+00C0 to U+00DE, the
    multiplication sign U+00D7 apart, are moved up by 32. *)
Definition lower_char (c : char) : char :=
  if ((65 <=? c)%N && (c <=? 90)%N)
     || ((192 <=? c)%N && (c <=? 222)%N && negb (c =? 215)%N)
  then (c + 32)%N else c.

Definition lower (s : text) : text := map lower_char s.

(** The alphabetic characters below 256: the ASCII letters, the ordinal
    indicators U+00AA and U+00BA, the micro sign U+00B5, and U+00C0 to
    U+00FF without the multiplication and division signs. *)
Definition isalpha_char (c : char) : bool :=
  ascii_letter c
  || (c =? 170)%N || (c =? 181)%N || (c =? 186)%N
  || ((192 <=? c)%N && (c <=? 255)%N
      && negb (c =? 215)%N && negb (c =? 247)%N).

(** The word cafe with an acute accent on its last letter (U+00E9), and
    the same in capitals (U+00C9). *)
Definition cafe : text := T "caf" ++ [233%N].
Definition CAFE : text := T "CAF" ++ [201%N].

(** Some of the English stop words of NLTK. *)
Definition english_stop_words : list text :=
  [T "i"; T "me"; T "my"; T "we"; T "our"; T "you"; T "your"; T "he"; T "she";
   T "it"; T "its"; T "they"; T "them"; T "what"; T "which"; T "who";
   T "this"; T "that"; T "these"; T "those"; T "am"; T "is"; T "are"; T "was";
   T "were"; T "be"; T "been"; T "being"; T "have"; T "has"; T "had"; T "do";
   T "does"; T "did"; T "a"; T "an"; T "the"; T "and"; T "but"; T "if";
   T "or"; T "because"; T "as"; T "until"; T "while"; T "of"; T "at"; T "by";
   T "for"; T "with"; T "about"; T "against"; T "between"; T "into";
   T "through"; T "to"; T "from"; T "up"; T "down"; T "in"; T "out"; T "on";
   T "off"; T "over"; T "under"; T "then"; T "here"; T "there"; T "when";
   T "where"; T "why"; T "how"; T "all"; T "any"; T "both"; T "each"; T "few";
   T "more"; T "most"; T "other"; T "some"; T "such"; T "no"; T "nor";
   T "not"; T "only"; T "own"; T "same"; T "so"; T "than"; T "too"; T "very";
   T "can"; T "will"; T "just"; T "should"; T "now"].

(** A fresh summarizer, as [__init__] leaves it. *)
Definition fresh : RAGSummarizer :=
  {| documents := []; processed_text := [];
     stop_words := english_stop_words |}.

Definition text_file (file_name content : text) : UploadedFile :=
  {| name := file_name; pdf_pages := Raised; text_content := Returned content
      |}.

Definition uploads : list UploadedFile :=
  [text_file (T "study.txt")
     (T "The study used a new method.  Data analysis showed results. We found strong evidence.");
   text_file (T "notes.txt")
     (T "The method works. The data is good. Final sentence here.")].

(** The session after the two sample files have been processed. *)
Definition session : RAGSummarizer :=
  snd (process_documents sent_tokenize fresh uploads).

(** The session after a file of blanks has been processed: the call
    succeeds and the corpus is empty. *)
Definition blank_session : RAGSummarizer :=
  snd (process_documents sent_tokenize fresh [text_file (T "blank.txt")
      (T "   ")]).

(** A session whose text has no word longer than three letters. *)
Definition short_session : RAGSummarizer :=
  snd (process_documents sent_tokenize fresh
         [text_file (T "short.txt") (T "The cat sat. A dog ran off.")]).

(** A session with a corpus of two sentences. *)
Definition quality_session : RAGSummarizer :=
  snd (process_documents sent_tokenize fresh
         [text_file (T "quality.txt") (T "Quality matters. Data matters.")]).

(** A session whose first sentence has an accented word. *)
Definition cafe_session : RAGSummarizer :=
  snd (process_documents sent_tokenize fresh
         [text_file (T "cafe.txt")
            (T "The " ++ cafe ++ T " is open. Data matters.")]).

End Sample.

(** The overview sentences of the comprehensive summary, in the words of
    the specification: the first two sentences plus, when the corpus has
    more than four sentences, the last two, capped to the first three. *)
Definition overview (corpus : list text) : list text :=
  firstn 3
    (firstn 2 corpus
     ++ (if (4 <? List.length corpus)%nat then Py.last_n 2 corpus else [])).

(** The sentences printed by the key-points block, cleaned, most relevant
    first. *)
Definition key_point_sentences (word_tokenize : text -> list text)
    (lower : text -> text) (isalpha_char : char -> bool)
    (self : RAGSummarizer) : list text :=
  map (fun p => clean_sentence (snd p))
      (firstn 5 (rank_sentences lower
                                (top_words word_tokenize lower isalpha_char
                                           self)
                                (fun score => (2 <=? score)%nat)
                                (documents self))).

(** The sentences a fixed-vocabulary strategy selects: those with a score
    of at least one, in corpus order. *)
Definition vocabulary_matches (lower : text -> text) (keywords : list text)
    (corpus : list text) : list text :=
  filter (fun sentence => (1 <=? vocabulary_score lower keywords sentence)%nat)
         corpus.

(** The statistics line of the comprehensive summary. *)
Definition statistics_line (sentences words : nat) : text :=
  T "*Document Statistics: " ++ Py.str sentences ++ T " sentences, "
    ++ Py.str words ++ T " words*" ++ nl ++ nl.

(** The comprehensive summary as the formatting rule of the specification
    describes it: a numbered overview and a bulleted key-points block. *)
Definition comprehensive_numbered_overview
    (word_tokenize : text -> list text) (lower : text -> text)
    (isalpha_char : char -> bool) (self : RAGSummarizer) : text :=
  T "**COMPREHENSIVE SUMMARY**" ++ nl ++ nl
    ++ statistics_line (List.length (documents self))
                       (List.length (word_tokenize (processed_text self)))
    ++ T "**Overview:**" ++ nl
    ++ numbered_list (map clean_sentence (overview (documents self)))
    ++ T "**KEY POINTS:**" ++ nl ++ nl
    ++ bulleted_list
         (key_point_sentences word_tokenize lower isalpha_char self).

(** The header of an answer: the question echoed verbatim. *)
Definition answer_header (question : text) : text :=
  T "**Answer to: " ++ question ++ T "**" ++ nl ++ nl
    ++ T "Based on the document content:" ++ nl ++ nl.

(** The answer built from a list of keywords: the corpus sentences with a
    score of at least one, by decreasing score and in corpus order among
    equal scores, the first five as a numbered list under the header. *)
Definition answer_from (lower : text -> text) (keywords : list text)
    (corpus : list text) (question : text) : text :=
  let ranked := Py.sort_desc fst (retained lower keywords 1 corpus) in
  if Py.nonempty ranked then
    answer_header question
      ++ numbered_list (map (fun p => clean_sentence (snd p)) (firstn 5 ranked))
  else T "No relevant information found for your question.".

(** The answer as the specification describes it: the sentences are scored
    against the keyword set of the question, every keyword counting once. *)
Definition answer_by_keyword_set (word_tokenize : text -> list text)
    (lower : text -> text) (isalpha_char : char -> bool)
    (self : RAGSummarizer) (question : text) : text :=
  answer_from lower
    (keyword_set
       (question_words word_tokenize lower isalpha_char self question))
    (documents self) question.

(* ================================================================== *)
(** ** The application: [main] *)
(* ================================================================== *)

(** The options of the "Summary Type" select box. *)
Inductive SummaryKind : Type :=
| Comprehensive
| KeyPoints
| Methodology
| Findings.

Definition kind_name (kind : SummaryKind) : text :=
  match kind with
  | Comprehensive => (T "comprehensive")
  | KeyPoints => (T "key_points")
  | Methodology => (T "methodology")
  | Findings => (T "findings")
  end.

(** [st.session_state]: the summarizer, once created, and the flag
    [documents_processed] (absent reads as [False]). *)
Record SessionState : Type := {
  rag_system : option RAGSummarizer;
  documents_processed : bool
}.

(** What the widgets return in one run of the script: the uploaded files,
    the selected summary type, the text of the question box, and for each
    button whether it was pressed. *)
Record Widgets : Type := {
  uploaded_files : list UploadedFile;
  process_clicked : bool;
  summary_type : SummaryKind;
  generate_clicked : bool;
  question : text;
  answer_clicked : bool
}.

(** The session state of a new browser session. *)
Definition new_session : SessionState :=
  {| rag_system := None; documents_processed := false |}.

Section Application.

Variable word_tokenize : text -> list text.
Variable sent_tokenize : text -> list text.
Variable lower : text -> text.
Variable isalpha_char : char -> bool.

(** [DEPENDENCIES_OK] and [stopwords.words('english')]. *)
Variable dependencies_ok : bool.
Variable english : list text.

(** [RAGSummarizer()] *)
Definition new_summarizer : RAGSummarizer :=
  {| documents := []; processed_text := []; stop_words := english |}.

(** One run of [main]: the session state it leaves and the texts it passes
    to [st.markdown], in order.  Titles, captions and status messages are
    not represented. *)
Definition main (session : SessionState) (widgets : Widgets)
    : SessionState * list text :=
  if negb dependencies_ok then (session, [])
  else
    let rag :=
      match rag_system session with
      | Some rag => rag
      | None => new_summarizer
      end in
    let session :=
      {| rag_system := Some rag;
         documents_processed := documents_processed session |} in
    let session :=
      if Py.nonempty (uploaded_files widgets) then
        if process_clicked widgets then
          let (success, rag) :=
            process_documents sent_tokenize rag (uploaded_files widgets) in
          if success
          then {| rag_system := Some rag; documents_processed := true |}
          else {| rag_system := Some rag;
                  documents_processed := documents_processed session |}
        else session
      else session in
    if documents_processed session then
      let rag :=
        match rag_system session with
        | Some rag => rag
        | None => new_summarizer
        end in
      let summary :=
        if generate_clicked widgets
        then [generate_summary word_tokenize lower isalpha_char rag
                               (kind_name (summary_type widgets))]
        else [] in
      let answer :=
        if Py.truthy (question widgets) && answer_clicked widgets
        then [ask_question word_tokenize lower isalpha_char rag
                           (question widgets)]
        else [] in
      (session, (summary ++ answer))
    else (session, []).

(** The session state after a sequence of runs in a new session. *)
Definition session_after (runs : list Widgets) : SessionState :=
  fold_left (fun session widgets => fst (main session widgets)) runs
            new_session.

End Application.

(** Sample runs of the application. *)
Module SampleRuns.

(** A run in which nothing is uploaded and no button is pressed. *)
Definition idle : Widgets :=
  {| uploaded_files := []; process_clicked := false;
     summary_type := Comprehensive; generate_clicked := false;
     question := []; answer_clicked := false |}.

(** The run in which the two sample files are processed. *)
Definition process_run : Widgets :=
  {| uploaded_files := Sample.uploads; process_clicked := true;
     summary_type := Comprehensive; generate_clicked := false;
     question := []; answer_clicked := false |}.

(** A run in which the findings summary is requested. *)
Definition findings_run : Widgets :=
  {| uploaded_files := []; process_clicked := false;
     summary_type := Findings; generate_clicked := true;
     question := []; answer_clicked := false |}.

(** A run in which a PDF that cannot be loaded is processed and the
    findings summary is requested. *)
Definition broken_run : Widgets :=
  {| uploaded_files :=
       [{| name := T "broken.pdf"; pdf_pages := Raised;
           text_content := Returned (T "Not a PDF.") |}];
     process_clicked := true;
     summary_type := Findings; generate_clicked := true;
     question := []; answer_clicked := false |}.

(** The application with the sample tokenizers and stop words. *)
Definition run (session : SessionState) (widgets : Widgets)
    : SessionState * list text :=
  main Sample.word_tokenize Sample.sent_tokenize Sample.lower
       Sample.isalpha_char true Sample.english_stop_words session widgets.

Definition after (runs : list Widgets) : SessionState :=
  session_after Sample.word_tokenize Sample.sent_tokenize Sample.lower
                Sample.isalpha_char true Sample.english_stop_words runs.

End SampleRuns.

(* ================================================================== *)
(** ** Verification *)
(* ================================================================== *)

Lemma eqb_str_spec (a b : text) : reflect (a = b) (eqb_str a b).
Proof.
  revert b. induction a as [|x a IH]; intros [|y b]; cbn [eqb_str];
    try (constructor; congruence).
  destruct (N.eqb_spec x y) as [->|Hne]; cbn [andb].
  - destruct (IH b) as [->|Hne]; constructor; congruence.
  - constructor. congruence.
Qed.

Lemma eqb_str_refl (a : text) : eqb_str a a = true.
Proof. now destruct (eqb_str_spec a a). Qed.

Lemma eqb_str_eq (a b : text) : eqb_str a b = true <-> a = b.
Proof. destruct (eqb_str_spec a b); split; congruence. Qed.

Lemma eqb_str_neq (a b : text) : eqb_str a b = false <-> a <> b.
Proof. destruct (eqb_str_spec a b); split; congruence. Qed.

(** Replaces every literal of the goal by the list of its characters. *)
Ltac literals :=
  repeat match goal with
         | |- context [T ?s] =>
             let v := eval vm_compute in (T s) in change (T s) with v
         end;
  unfold nl, space, bullet.

(** [tauto] on the goal alone: the parameters of the development that the
    goal does not mention are put aside first. *)
Ltac propositional :=
  repeat match goal with
         | f : text -> list text |- _ => clear f
         | f : text -> text |- _ => clear f
         | f : char -> bool |- _ => clear f
         end;
  tauto.

Section Verification.

Variable word_tokenize : text -> list text.
Variable sent_tokenize : text -> list text.
Variable lower : text -> text.
Variable isalpha_char : char -> bool.

#[local] Set Default Proof Using "Type".

(* ================================================================== *)
(** ** Strings and loops *)
(* ================================================================== *)

Lemma str_app_assoc (a b c : text) : (a ++ b) ++ c = a ++ (b ++ c).
Proof.
  induction a as [|x a IH]; simpl; [reflexivity | now rewrite IH].
Qed.

Lemma str_app_nil_r (a : text) : a ++ T "" = a.
Proof.
  induction a as [|x a IH]; simpl; [reflexivity | now rewrite IH].
Qed.

(** [starts] and [contains] are prefix and substring containment. *)
Lemma starts_spec (p s : text) :
  Py.starts p s = true <-> exists post, s = p ++ post.
Proof.
  revert s. induction p as [|a p IH]; intro s; cbn [Py.starts app].
  - split; [intros _; now exists s | reflexivity].
  - destruct s as [|b s].
    + split; [discriminate | intros [post H]; discriminate].
    + rewrite andb_true_iff, N.eqb_eq, IH. split.
      * intros [-> [post ->]]. now exists post.
      * intros [post H]. inversion H; subst. split; [reflexivity|].
        now exists post.
Qed.

Lemma contains_spec (needle hay : text) :
  Py.contains needle hay = true <->
  exists pre post, hay = pre ++ needle ++ post.
Proof.
  induction hay as [|c hay IH]; cbn [Py.contains];
    rewrite orb_true_iff, starts_spec.
  - split.
    + intros [[post H]|H]; [|discriminate]. now exists [], post.
    + intros [pre [post H]]. left.
      destruct pre; [now exists post | discriminate].
  - rewrite IH. split.
    + intros [[post H]|[pre [post H]]].
      * now exists [], post.
      * exists ((c :: pre)), post. cbn [app]. now rewrite H.
    + intros [pre [post H]]. destruct pre as [|x pre].
      * left. now exists post.
      * right. cbn [app] in H. inversion H; subst.
        now exists pre, post.
Qed.

Lemma nonempty_false_iff {A : Type} (l : list A) :
  Py.nonempty l = false <-> l = [].
Proof.
  destruct l; simpl; split; intro H; congruence.
Qed.

Lemma nonempty_true_iff {A : Type} (l : list A) :
  Py.nonempty l = true <-> l <> [].
Proof.
  destruct l; simpl; split; intro H; congruence.
Qed.

(** The numbered loop: [for i, (_, sentence) in enumerate(xs, k)]. *)
Lemma numbered_loop (xs : list (nat * text)) :
  forall (k : nat) (init : text),
    fold_left
      (fun summary '(i, (_, sentence)) =>
         summary ++ Py.str i ++ T ". " ++ clean_sentence sentence ++ nl ++ nl)
      (Py.enumerate xs k) init
    = init ++ numbered_from k (map (fun p => clean_sentence (snd p)) xs).
Proof.
  unfold Py.enumerate.
  induction xs as [|[sc s] xs IH]; intros k init;
    cbn [fold_left combine seq List.length map numbered_from snd].
  - now rewrite str_app_nil_r.
  - rewrite IH. now rewrite !str_app_assoc.
Qed.

(** The bulleted loop over an enumeration whose counter is not printed. *)
Lemma bulleted_enumerate_loop (xs : list text) :
  forall (k : nat) (init : text),
    fold_left
      (fun summary '(i, sentence) =>
         summary ++ bullet ++ clean_sentence sentence ++ nl ++ nl)
      (Py.enumerate xs k) init
    = init ++ bulleted_list (map clean_sentence xs).
Proof.
  unfold Py.enumerate.
  induction xs as [|s xs IH]; intros k init;
    cbn [fold_left combine seq List.length map bulleted_list].
  - now rewrite str_app_nil_r.
  - rewrite IH. now rewrite !str_app_assoc.
Qed.

Lemma bulleted_loop (xs : list text) :
  forall init : text,
    fold_left
      (fun summary sentence =>
         summary ++ bullet ++ clean_sentence sentence ++ nl ++ nl)
      xs init
    = init ++ bulleted_list (map clean_sentence xs).
Proof.
  induction xs as [|s xs IH]; intros init;
    cbn [fold_left map bulleted_list].
  - now rewrite str_app_nil_r.
  - rewrite IH. now rewrite !str_app_assoc.
Qed.

(** The scoring loop keeps the sentences in corpus order. *)
Lemma scoring_loop (words : list text) (keep : nat -> bool)
    (sentences : list text) :
  forall acc : list (nat * text),
    fold_left
      (fun acc sentence =>
         let score := score lower words sentence in
         if keep score then (acc ++ [(score, sentence)]) else acc)
      sentences acc
    = (acc ++ filter (fun p => keep (fst p))
                (map (fun sentence => (score lower words sentence, sentence))
                     sentences)).
Proof.
  induction sentences as [|s l IH]; intros acc; simpl.
  - now rewrite app_nil_r.
  - rewrite IH. destruct (keep (score lower words s)); [|reflexivity].
    now rewrite <- app_assoc.
Qed.

Lemma rank_sentences_eq (words : list text) (minScore : nat)
    (sentences : list text) :
  rank_sentences lower words (fun score => (minScore <=? score)%nat) sentences
  = Py.sort_desc fst (retained lower words minScore sentences).
Proof.
  unfold rank_sentences, retained. now rewrite scoring_loop.
Qed.

Lemma vocabulary_sentences_eq (keywords : list text)
    (sentences : list text) :
  vocabulary_sentences lower keywords sentences
  = vocabulary_matches lower keywords sentences.
Proof.
  unfold vocabulary_sentences, vocabulary_matches.
  enough (H : forall acc,
             fold_left
               (fun acc sentence =>
                  let score := vocabulary_score lower keywords sentence in
                  if (1 <=? score)%nat then (acc ++ [sentence]) else acc)
               sentences acc
             = (acc ++ filter (fun s => (1 <=? vocabulary_score lower keywords
                 s)%nat)
                         sentences))
    by apply (H []).
  induction sentences as [|s l IH]; intros acc; cbn [fold_left filter].
  - now rewrite app_nil_r.
  - rewrite IH. cbv zeta.
    destruct (1 <=? vocabulary_score lower keywords s)%nat; [|reflexivity].
    now rewrite <- app_assoc.
Qed.

(** A score of at least one means that some keyword occurs. *)
Lemma count_if_positive {A : Type} (p : A -> bool) (xs : list A) :
  (1 <=? Py.count_if p xs)%nat = existsb p xs.
Proof.
  unfold Py.count_if.
  induction xs as [|x xs IH]; simpl; [reflexivity|].
  destruct (p x); simpl; [reflexivity | exact IH].
Qed.

Section Summaries.


Lemma key_points_eq (self : RAGSummarizer) :
  _extract_key_points word_tokenize lower isalpha_char self
  = T "**KEY POINTS:**" ++ nl ++ nl
      ++ numbered_list (key_point_sentences word_tokenize lower isalpha_char
             self).
Proof.
  unfold _extract_key_points, key_point_sentences, numbered_list.
  rewrite numbered_loop. now rewrite !str_app_assoc.
Qed.

Lemma methodology_eq (self : RAGSummarizer) :
  _extract_methodology lower self
  = if Py.nonempty (vocabulary_matches lower method_keywords (documents self))
    then T "**METHODOLOGY:**" ++ nl ++ nl
           ++ bulleted_list
                (map clean_sentence
                   (firstn 7 (vocabulary_matches lower method_keywords
                                                 (documents self))))
    else T "No clear methodology sections found in the documents.".
Proof.
  unfold _extract_methodology. rewrite vocabulary_sentences_eq.
  destruct (Py.nonempty _); simpl negb; cbv iota; [|reflexivity].
  rewrite bulleted_enumerate_loop. now rewrite !str_app_assoc.
Qed.

Lemma findings_eq (self : RAGSummarizer) :
  _extract_findings lower self
  = if Py.nonempty (vocabulary_matches lower finding_keywords (documents self))
    then T "**FINDINGS & RESULTS:**" ++ nl ++ nl
           ++ bulleted_list
                (map clean_sentence
                   (firstn 7 (vocabulary_matches lower finding_keywords
                                                 (documents self))))
    else T "No clear findings sections found in the documents.".
Proof.
  unfold _extract_findings. rewrite vocabulary_sentences_eq.
  destruct (Py.nonempty _); simpl negb; cbv iota; [|reflexivity].
  rewrite bulleted_enumerate_loop. now rewrite !str_app_assoc.
Qed.

Lemma important_sentences_overview (self : RAGSummarizer) :
  firstn 3 (important_sentences self) = overview (documents self).
Proof.
  unfold important_sentences, overview.
  destruct (documents self) as [|d ds]; reflexivity.
Qed.

Lemma comprehensive_eq (self : RAGSummarizer) :
  _extract_comprehensive word_tokenize lower isalpha_char self
  = T "**COMPREHENSIVE SUMMARY**" ++ nl ++ nl
      ++ statistics_line (List.length (documents self))
           (List.length (word_tokenize (processed_text self)))
      ++ T "**Overview:**" ++ nl
      ++ bulleted_list (map clean_sentence (overview (documents self)))
      ++ _extract_key_points word_tokenize lower isalpha_char self.
Proof.
  unfold _extract_comprehensive, statistics_line.
  rewrite bulleted_loop, important_sentences_overview.
  now rewrite !str_app_assoc.
Qed.

Lemma generate_summary_nonempty (self : RAGSummarizer) (kind : text) :
  documents self <> [] ->
  generate_summary word_tokenize lower isalpha_char self kind
  = if eqb_str kind (T "key_points") then _extract_key_points word_tokenize
      lower isalpha_char self
    else if eqb_str kind (T "methodology") then _extract_methodology lower self
    else if eqb_str kind (T "findings") then _extract_findings lower self
    else _extract_comprehensive word_tokenize lower isalpha_char self.
Proof.
  intro H. unfold generate_summary.
  apply nonempty_true_iff in H. now rewrite H.
Qed.

End Summaries.

(* ================================================================== *)
(** ** The stable descending sort *)
(* ================================================================== *)

Section SortFacts.

Context {A : Type} (key : A -> nat).

Lemma insert_desc_perm (x : A) (l : list A) :
  Permutation (x :: l) (Py.insert_desc key x l).
Proof.
  induction l as [|y l IH]; simpl; [apply Permutation_refl|].
  destruct (key x <? key y)%nat; [|apply Permutation_refl].
  eapply perm_trans; [apply perm_swap|]. now apply perm_skip.
Qed.

Lemma sort_desc_perm (l : list A) : Permutation l (Py.sort_desc key l).
Proof.
  induction l as [|x l IH]; simpl; [constructor|].
  eapply perm_trans; [|apply insert_desc_perm]. now apply perm_skip.
Qed.

Lemma sort_desc_in (l : list A) (a : A) :
  In a (Py.sort_desc key l) <-> In a l.
Proof.
  split; apply Permutation_in;
    [apply Permutation_sym|]; apply sort_desc_perm.
Qed.

Lemma insert_desc_ties (R : A -> A -> Prop) (x : A) (l : list A) :
  StronglySorted (tie_order key R) l ->
  Forall (R x) l ->
  StronglySorted (tie_order key R) (Py.insert_desc key x l).
Proof.
  induction l as [|y l IH]; intros Hs Hx; simpl.
  - constructor; constructor.
  - apply StronglySorted_inv in Hs. destruct Hs as [Hs Hy].
    inversion Hx as [|? ? Hxy Hxl]; subst.
    destruct (key x <? key y)%nat eqn:E.
    + apply Nat.ltb_lt in E. constructor; [now apply IH|].
      eapply Permutation_Forall; [apply insert_desc_perm|].
      constructor; [now left | exact Hy].
    + apply Nat.ltb_ge in E. constructor; [now constructor|].
      constructor.
      * destruct (Nat.eq_dec (key x) (key y)) as [e|n];
          [right; now split | left; lia].
      * rewrite Forall_forall in *. intros z Hz.
        specialize (Hy z Hz). specialize (Hxl z Hz).
        unfold tie_order in *.
        destruct (Nat.eq_dec (key x) (key z)) as [e|n];
          [right; now split | left; lia].
Qed.

(** Sorting a list whose elements are pairwise related by [R], left to
    right, orders it by decreasing key and, within a key, by [R]. *)
Lemma sort_desc_ties (R : A -> A -> Prop) (l : list A) :
  StronglySorted R l ->
  StronglySorted (tie_order key R) (Py.sort_desc key l).
Proof.
  induction l as [|x l IH]; intro Hs; simpl; [constructor|].
  apply StronglySorted_inv in Hs. destruct Hs as [Hs Hx].
  apply insert_desc_ties; [now apply IH|].
  eapply Permutation_Forall; [apply sort_desc_perm | exact Hx].
Qed.

Lemma sort_desc_sorted (l : list A) :
  StronglySorted (fun a b => key b <= key a) (Py.sort_desc key l).
Proof.
  assert (Hany : StronglySorted (fun _ _ : A => True) l).
  { induction l; constructor; [assumption|].
    apply Forall_forall; intros; exact I. }
  apply (sort_desc_ties _ l) in Hany.
  induction Hany as [|a l' Hs IH Ha]; constructor; [exact IH|].
  rewrite Forall_forall in *. intros z Hz.
  destruct (Ha z Hz) as [H|[H _]]; lia.
Qed.

Lemma insert_desc_filter (v : nat) (x : A) (l : list A) :
  filter (fun a => key a =? v)%nat (Py.insert_desc key x l)
  = filter (fun a => key a =? v)%nat (x :: l).
Proof.
  induction l as [|y l IH]; [reflexivity|].
  cbn [Py.insert_desc]. destruct (key x <? key y)%nat eqn:E;
    [|reflexivity].
  apply Nat.ltb_lt in E. cbn [filter] in *. rewrite IH.
  destruct (key x =? v)%nat eqn:Ex; destruct (key y =? v)%nat eqn:Ey;
    try reflexivity.
  apply Nat.eqb_eq in Ex, Ey. lia.
Qed.

(** Stability: the elements of any one key come out in the order in which
    they went in. *)
Lemma sort_desc_stable (v : nat) (l : list A) :
  filter (fun a => key a =? v)%nat (Py.sort_desc key l)
  = filter (fun a => key a =? v)%nat l.
Proof.
  induction l as [|x l IH]; [reflexivity|].
  cbn [Py.sort_desc]. rewrite insert_desc_filter.
  cbn [filter]. now rewrite IH.
Qed.

End SortFacts.






(* ================================================================== *)
(** ** Summaries *)
(* ================================================================== *)

Lemma skipn_nth {A : Type} (d : A) (l : list A) :
  forall n, n < List.length l -> skipn n l = nth n l d :: skipn (S n) l.
Proof.
  induction l as [|x l IH]; intros n Hn; simpl in Hn; [lia|].
  destruct n as [|n]; [reflexivity|].
  cbn [skipn nth]. apply IH. lia.
Qed.

(** With the cap of three, only the first of the last two sentences is
    shown. *)
Lemma overview_explicit (corpus : list text) :
  overview corpus
  = (firstn 2 corpus
     ++ (if (4 <? List.length corpus)%nat
         then [nth (List.length corpus - 2) corpus []] else [])).
Proof.
  unfold overview, Py.last_n.
  destruct corpus as [|a [|b [|c [|d [|e r]]]]]; try reflexivity.
  replace (4 <? List.length (a :: b :: c :: d :: e :: r))%nat with true
    by reflexivity.
  rewrite (skipn_nth ([] : text)) by (simpl; lia).
  reflexivity.
Qed.

Lemma count_if_app {A : Type} (p : A -> bool) (xs ys : list A) :
  Py.count_if p (xs ++ ys) = Py.count_if p xs + Py.count_if p ys.
Proof.
  unfold Py.count_if. now rewrite filter_app, length_app.
Qed.

(** C6. When no documents have been processed (the corpus is empty),
    [generate_summary] returns exactly "No documents processed yet.",
    whatever the summary kind. *)
Theorem generate_summary_no_documents (self : RAGSummarizer)
    (summary_type : text) :
  documents self = [] ->
  generate_summary word_tokenize lower isalpha_char self summary_type
  = T "No documents processed yet.".
Proof.
  intro H. unfold generate_summary. now rewrite H.
Qed.

(** C9. Adding a keyword never decreases the score of a sentence: neither
    when it is added to the keyword set, nor when it is appended or put in
    front of the keyword list; the same holds for the score against a
    fixed vocabulary. *)
Theorem score_monotone (sentence : text) (keywords : list text)
    (k : text) :
  score lower keywords sentence <= score lower (add_keyword k keywords)
      sentence /\
  score lower keywords sentence <= score lower (keywords ++ [k]) sentence /\
  score lower keywords sentence <= score lower (k :: keywords) sentence /\
  vocabulary_score lower keywords sentence
    <= vocabulary_score lower (add_keyword k keywords) sentence.
Proof.
  unfold score, vocabulary_score, add_keyword.
  repeat split.
  - destruct (Py.mem k keywords); [lia|]. rewrite count_if_app. lia.
  - rewrite count_if_app. lia.
  - unfold Py.count_if. cbn [filter].
    destruct (Py.contains (lower k) (lower sentence)); simpl; lia.
  - destruct (Py.mem k keywords); [lia|]. rewrite count_if_app. lia.
Qed.

(** C10. On a non-empty corpus the methodology and the findings summaries
    list the first seven sentences, in corpus order, whose score against
    the fixed vocabulary is at least one (some keyword of the vocabulary
    occurs in the lower-cased sentence); nothing is sorted by score.  When
    no sentence matches, the fixed message is returned. *)
Theorem methodology_findings_in_corpus_order (self : RAGSummarizer) :
  documents self <> [] ->
  let first_seven keywords :=
    firstn 7 (filter (fun sentence =>
                        (1 <=? vocabulary_score lower keywords sentence)%nat)
                     (documents self)) in
  generate_summary word_tokenize lower isalpha_char self (T "methodology")
  = (if Py.nonempty (first_seven method_keywords)
     then T "**METHODOLOGY:**" ++ nl ++ nl
            ++ bulleted_list (map clean_sentence (first_seven method_keywords))
     else T "No clear methodology sections found in the documents.")
  /\
  generate_summary word_tokenize lower isalpha_char self (T "findings")
  = (if Py.nonempty (first_seven finding_keywords)
     then T "**FINDINGS & RESULTS:**" ++ nl ++ nl
            ++ bulleted_list (map clean_sentence (first_seven finding_keywords))
     else T "No clear findings sections found in the documents.")
  /\
  forall keywords sentence,
    (1 <=? vocabulary_score lower keywords sentence)%nat
    = existsb (fun keyword => Py.contains keyword (lower sentence)) keywords.
Proof.
  intros H first_seven. subst first_seven. cbv beta.
  assert (Hne : forall l : list text,
             Py.nonempty (firstn 7 l) = Py.nonempty l)
    by (intros [|x l]; reflexivity).
  rewrite !Hne, !generate_summary_nonempty by exact H.
  cbn [eqb_str N.eqb Bool.eqb].
  rewrite methodology_eq, findings_eq.
  repeat split. intros keywords sentence. apply count_if_positive.
Qed.

(** C4. On a non-empty corpus the comprehensive summary is the
    "COMPREHENSIVE SUMMARY" header, the statistics line with the number of
    sentences and of word tokens, the overview, and the full key-points
    block.  The overview is made of the first two corpus sentences plus,
    exactly when the corpus has more than four sentences, the last two,
    capped to the first three of the combined list; so of the last two
    sentences only the last but one is ever shown. *)
Theorem comprehensive_summary_structure (self : RAGSummarizer) :
  documents self <> [] ->
  let corpus := documents self in
  let shown :=
    firstn 3 (firstn 2 corpus
              ++ (if (4 <? List.length corpus)%nat then Py.last_n 2 corpus
                  else [])) in
  generate_summary word_tokenize lower isalpha_char self (T "comprehensive")
  = T "**COMPREHENSIVE SUMMARY**" ++ nl ++ nl
      ++ T "*Document Statistics: " ++ Py.str (List.length corpus)
      ++ T " sentences, "
      ++ Py.str (List.length (word_tokenize (processed_text self)))
      ++ T " words*" ++ nl ++ nl
      ++ T "**Overview:**" ++ nl
      ++ bulleted_list (map clean_sentence shown)
      ++ generate_summary word_tokenize lower isalpha_char self (T "key_points")
  /\
  shown
  = (firstn 2 corpus
     ++ (if (4 <? List.length corpus)%nat
         then [nth (List.length corpus - 2) corpus []] else [])).
Proof.
  intros H corpus shown. subst corpus shown. split.
  - rewrite !generate_summary_nonempty by exact H.
    cbn [eqb_str N.eqb Bool.eqb].
    rewrite comprehensive_eq. unfold statistics_line, overview.
    now rewrite !str_app_assoc.
  - apply overview_explicit.
Qed.

(** C1, as amended. On a non-empty corpus the sentences of the key-points
    summary are a numbered list, also where the key-points block is part of
    the comprehensive summary; the overview sentences of the comprehensive
    summary and the selected sentences of the methodology and findings
    summaries are a bulleted list. *)
Theorem summary_list_formats (self : RAGSummarizer) :
  documents self <> [] ->
  let corpus := documents self in
  generate_summary word_tokenize lower isalpha_char self (T "key_points")
  = T "**KEY POINTS:**" ++ nl ++ nl
      ++ numbered_list (key_point_sentences word_tokenize lower isalpha_char
             self)
  /\
  (vocabulary_matches lower method_keywords corpus <> [] ->
   generate_summary word_tokenize lower isalpha_char self (T "methodology")
   = T "**METHODOLOGY:**" ++ nl ++ nl
       ++ bulleted_list
            (map clean_sentence
                 (firstn 7 (vocabulary_matches lower method_keywords corpus))))
  /\
  (vocabulary_matches lower finding_keywords corpus <> [] ->
   generate_summary word_tokenize lower isalpha_char self (T "findings")
   = T "**FINDINGS & RESULTS:**" ++ nl ++ nl
       ++ bulleted_list
            (map clean_sentence
                 (firstn 7 (vocabulary_matches lower finding_keywords corpus))))
  /\
  generate_summary word_tokenize lower isalpha_char self (T "comprehensive")
  = T "**COMPREHENSIVE SUMMARY**" ++ nl ++ nl
      ++ statistics_line (List.length corpus)
           (List.length (word_tokenize (processed_text self)))
      ++ T "**Overview:**" ++ nl
      ++ bulleted_list (map clean_sentence (overview corpus))
      ++ T "**KEY POINTS:**" ++ nl ++ nl
      ++ numbered_list (key_point_sentences word_tokenize lower isalpha_char
             self).
Proof.
  intros H corpus. subst corpus.
  rewrite !generate_summary_nonempty by exact H.
  cbn [eqb_str N.eqb Bool.eqb].
  split; [apply key_points_eq|].
  split; [|split].
  - intro Hm. apply nonempty_true_iff in Hm.
    rewrite methodology_eq. now rewrite Hm.
  - intro Hf. apply nonempty_true_iff in Hf.
    rewrite findings_eq. now rewrite Hf.
  - rewrite comprehensive_eq, key_points_eq. reflexivity.
Qed.

(* ================================================================== *)
(** ** Question answering *)
(* ================================================================== *)

Lemma ask_question_eq
    (self : RAGSummarizer) (question : text) :
  documents self <> [] ->
  question_words word_tokenize lower isalpha_char self question <> [] ->
  ask_question word_tokenize lower isalpha_char self question
  = answer_from lower (question_words word_tokenize lower isalpha_char self
      question)
                (documents self) question.
Proof.
  intros Hd Hq. unfold ask_question, answer_from, answer_header.
  apply nonempty_true_iff in Hd. apply nonempty_true_iff in Hq.
  rewrite Hd, Hq. cbn [negb].
  change (fun score : nat => (0 <? score)%nat)
    with (fun score : nat => (1 <=? score)%nat).
  rewrite rank_sentences_eq.
  destruct (Py.nonempty (Py.sort_desc _ _)); cbn [negb]; [|reflexivity].
  rewrite numbered_loop. unfold numbered_list.
  now rewrite !str_app_assoc.
Qed.

Lemma filter_all {A : Type} (p : A -> bool) (l : list A) :
  (forall x, In x l -> p x = true) -> filter p l = l.
Proof.
  induction l as [|x l IH]; intro H; [reflexivity|].
  cbn [filter]. rewrite (H x (or_introl eq_refl)).
  f_equal. apply IH. intros y Hy. apply H. now right.
Qed.

Lemma filter_none {A : Type} (p : A -> bool) (l : list A) :
  filter p l = [] <-> forall x, In x l -> p x = false.
Proof.
  induction l as [|x l IH]; cbn [filter].
  - split; [intros _ x [] | reflexivity].
  - destruct (p x) eqn:E; split; intro H.
    + discriminate.
    + specialize (H x (or_introl eq_refl)). congruence.
    + intros y [<-|Hy]; [exact E | now apply IH].
    + apply IH. intros y Hy. apply H. now right.
Qed.

Lemma keyword_set_nodup (tokens : list text) :
  NoDup tokens -> keyword_set tokens = tokens.
Proof.
  induction 1 as [|t rest Hnot Hnd IH]; [reflexivity|].
  cbn [keyword_set]. rewrite IH. f_equal. apply filter_all.
  intros u Hu. apply negb_true_iff, eqb_str_neq. congruence.
Qed.

Lemma sort_desc_nil {A : Type} (key : A -> nat) (l : list A) :
  Py.sort_desc key l = [] <-> l = [].
Proof.
  split; intro H.
  - apply Permutation_nil. rewrite <- H. apply Permutation_sym, sort_desc_perm.
  - now subst.
Qed.

(** C3, as amended. For every corpus and every question with at least one
    keyword: on an empty corpus [ask_question] returns "No documents
    processed yet."; on a corpus with a sentence it scores every corpus
    sentence against the keyword tokens of the question, a keyword counting
    as often as it occurs in the question, keeps the sentences with a score
    of at least one, ranks them by decreasing score with corpus order among
    equal scores, and returns the first five as a numbered list under a
    header that echoes the question verbatim; when no sentence has a score
    of at least one it returns "No relevant information found for your
    question.".  For a question without a repeated keyword this is the
    answer computed from the keyword set. *)
Theorem ask_question_ranked_answer (self : RAGSummarizer)
    (question : text) :
  question_words word_tokenize lower isalpha_char self question <> [] ->
  let words := question_words word_tokenize lower isalpha_char self question in
  let kept := retained lower words 1 (documents self) in
  let ranked := Py.sort_desc fst kept in
  (documents self = [] ->
   ask_question word_tokenize lower isalpha_char self question
   = T "No documents processed yet.")
  /\ (documents self <> [] ->
      ask_question word_tokenize lower isalpha_char self question
      = (if Py.nonempty ranked
         then T "**Answer to: " ++ question ++ T "**" ++ nl ++ nl
                ++ T "Based on the document content:" ++ nl ++ nl
                ++ numbered_list
                     (map (fun p => clean_sentence (snd p)) (firstn 5 ranked))
         else T "No relevant information found for your question."))
  /\ Permutation kept ranked
  /\ StronglySorted (fun p q => fst q <= fst p) ranked
  /\ (forall v : nat,
         filter (fun p => fst p =? v)%nat ranked
         = filter (fun p => fst p =? v)%nat kept)
  /\ (ranked = [] <->
      forall sentence, In sentence (documents self) ->
                       score lower words sentence = 0)
  /\ (documents self <> [] -> NoDup words ->
      ask_question word_tokenize lower isalpha_char self question
      = answer_by_keyword_set word_tokenize lower isalpha_char self question).
Proof.
  intros Hq words kept ranked. subst words kept ranked.
  split; [|split; [|split; [|split; [|split; [|split]]]]].
  - intro Hd. unfold ask_question. now rewrite Hd.
  - intro Hd. rewrite (ask_question_eq self question Hd Hq).
    unfold answer_from, answer_header.
    destruct (Py.nonempty (Py.sort_desc _ _)); [|reflexivity].
    now rewrite !str_app_assoc.
  - apply sort_desc_perm.
  - apply sort_desc_sorted.
  - intro v. apply sort_desc_stable.
  - rewrite sort_desc_nil. unfold retained. rewrite filter_none. split.
    + intros H sentence Hs.
      specialize (H (score lower (question_words word_tokenize lower
          isalpha_char self question)
                           sentence, sentence)).
      cbn [fst] in H.
      assert (Hin : In (score lower (question_words word_tokenize lower
          isalpha_char self question)
                              sentence, sentence)
                       (map (fun s => (score lower (question_words
                           word_tokenize lower isalpha_char
                                                             self question) s,
                                       s))
                            (documents self)))
        by (apply in_map_iff; now exists sentence).
      specialize (H Hin). apply Nat.leb_gt in H. lia.
    + intros H [sc s] Hin. apply in_map_iff in Hin.
      destruct Hin as [s' [E Hs']]. inversion E; subst.
      cbn [fst]. rewrite (H s Hs'). reflexivity.
  - intros Hd Hnd. rewrite (ask_question_eq self question Hd Hq).
    unfold answer_by_keyword_set.
    now rewrite (keyword_set_nodup _ Hnd).
Qed.

Lemma answer_from_not_prompt (keywords corpus : list text)
    (question : text) :
  answer_from lower keywords corpus question
  <> T "Please ask a more specific question with keywords.".
Proof.
  unfold answer_from, answer_header.
  destruct (Py.nonempty (Py.sort_desc _ _)); cbn [app]; discriminate.
Qed.

(** C7, as amended. The keywords of a question are the tokens of the
    lower-cased question that are alphabetic and not stop words, of any
    length (the frequency keywords must also be longer than three
    characters).  On a non-empty corpus [ask_question] returns the prompt
    for a more specific question exactly when there is no such keyword; on
    an empty corpus it returns "No documents processed yet." whatever the
    question. *)
Theorem ask_question_keywords (self : RAGSummarizer)
    (question : text) :
  (forall w,
      In w (question_words word_tokenize lower isalpha_char self question) <->
      In w (word_tokenize (lower question)) /\
      isalpha isalpha_char w = true /\ Py.mem w (stop_words self) = false)
  /\
  (forall w,
      In w (frequency_tokens word_tokenize lower isalpha_char self) <->
      In w (word_tokenize (lower (processed_text self))) /\
      isalpha isalpha_char w = true /\ Py.mem w (stop_words self) = false /\
      3 < List.length w)
  /\
  (documents self <> [] ->
   (ask_question word_tokenize lower isalpha_char self question
    = T "Please ask a more specific question with keywords."
    <-> question_words word_tokenize lower isalpha_char self question = []))
  /\
  (documents self = [] ->
   ask_question word_tokenize lower isalpha_char self question =
       T "No documents processed yet.").
Proof.
  split; [|split; [|split]].
  - intro w. unfold question_words. rewrite filter_In.
    rewrite andb_true_iff, negb_true_iff. propositional.
  - intro w. unfold frequency_tokens. rewrite filter_In.
    rewrite !andb_true_iff, negb_true_iff, Nat.ltb_lt. propositional.
  - intro Hd. split.
    + intro H.
      destruct (question_words word_tokenize lower isalpha_char self question)
          eqn:E;
        [reflexivity|].
      exfalso.
      rewrite ask_question_eq in H; [|exact Hd|rewrite E; discriminate].
      exact (answer_from_not_prompt _ _ _ H).
    + intro H. unfold ask_question.
      apply nonempty_true_iff in Hd. now rewrite Hd, H.
  - intro Hd. unfold ask_question. now rewrite Hd.
Qed.

(* ================================================================== *)
(** ** The frequency model *)
(* ================================================================== *)

Lemma StronglySorted_weaken {A : Type} (R R' : A -> A -> Prop) (l : list A) :
  StronglySorted R l ->
  (forall x y, In x l -> In y l -> R x y -> R' x y) ->
  StronglySorted R' l.
Proof.
  induction 1 as [|a l Hs IH Ha]; intro Himp; constructor.
  - apply IH. intros x y Hx Hy. apply Himp; now right.
  - rewrite Forall_forall in *. intros y Hy.
    apply Himp; [now left | now right | now apply Ha].
Qed.

Lemma StronglySorted_filter {A : Type} (R : A -> A -> Prop) (p : A -> bool)
    (l : list A) :
  StronglySorted R l -> StronglySorted R (filter p l).
Proof.
  induction 1 as [|a l Hs IH Ha]; cbn [filter]; [constructor|].
  destruct (p a); [|exact IH]. constructor; [exact IH|].
  rewrite Forall_forall in *. intros y Hy.
  apply filter_In in Hy. now apply Ha.
Qed.

Lemma StronglySorted_map {A B : Type} (R : B -> B -> Prop) (f : A -> B)
    (l : list A) :
  StronglySorted (fun a b => R (f a) (f b)) l -> StronglySorted R (map f l).
Proof.
  induction 1 as [|a l Hs IH Ha]; cbn [map]; constructor; [exact IH|].
  rewrite Forall_forall in *. intros y Hy.
  apply in_map_iff in Hy. destruct Hy as [b [<- Hb]]. now apply Ha.
Qed.

Lemma StronglySorted_app_inv {A : Type} (R : A -> A -> Prop) (l1 l2 : list A) :
  StronglySorted R (l1 ++ l2) ->
  StronglySorted R l1 /\
  (forall x y, In x l1 -> In y l2 -> R x y).
Proof.
  induction l1 as [|a l1 IH]; cbn [app]; intro H.
  - split; [constructor | intros x y []].
  - apply StronglySorted_inv in H. destruct H as [Hs Ha].
    destruct (IH Hs) as [Hs1 Hcross]. split.
    + constructor; [exact Hs1|].
      rewrite Forall_forall in *. intros y Hy. apply Ha.
      apply in_or_app. now left.
    + intros x y [<-|Hx] Hy.
      * rewrite Forall_forall in Ha. apply Ha. apply in_or_app. now right.
      * now apply Hcross.
Qed.

Lemma keyword_set_in (tokens : list text) (w : text) :
  In w (keyword_set tokens) <-> In w tokens.
Proof.
  induction tokens as [|t rest IH]; [reflexivity|].
  cbn [keyword_set In]. rewrite filter_In, IH, negb_true_iff, eqb_str_neq.
  destruct (str_dec t w) as [e|n]; [propositional|].
  split; [propositional|]. intros [H|H]; [propositional|]. right. split; [exact
      H|congruence].
Qed.

Lemma keyword_set_NoDup (tokens : list text) : NoDup (keyword_set tokens).
Proof.
  induction tokens as [|t rest IH]; cbn [keyword_set]; constructor.
  - rewrite filter_In, negb_true_iff, eqb_str_neq. propositional.
  - now apply NoDup_filter.
Qed.

Lemma keyword_set_snoc (tokens : list text) (w : text) :
  keyword_set (tokens ++ [w])
  = if in_dec str_dec w tokens then keyword_set tokens
    else (keyword_set tokens ++ [w]).
Proof.
  induction tokens as [|t rest IH]; [reflexivity|].
  cbn [app keyword_set]. rewrite IH.
  destruct (in_dec str_dec w rest) as [Hin|Hout];
    destruct (in_dec str_dec w (t :: rest)) as [Hin'|Hout'];
    try reflexivity.
  - exfalso. apply Hout'. now right.
  - destruct Hin' as [->|Hin']; [|contradiction].
    rewrite filter_app. cbn [filter]. rewrite eqb_str_refl. cbn [negb].
    now rewrite app_nil_r.
  - rewrite filter_app. cbn [filter app].
    assert (E : (eqb_str w t) = false).
    { apply eqb_str_neq. intros ->. apply Hout'. now left. }
    now rewrite E.
Qed.

Lemma incr_present (f : text -> nat) (w : text) (keys : list text) :
  NoDup keys -> In w keys ->
  Py.incr w (map (fun k => (k, f k)) keys)
  = map (fun k => (k, if eqb_str k w then S (f k) else f k)) keys.
Proof.
  induction 1 as [|k rest Hnot Hnd IH]; intro Hin; [destruct Hin|].
  cbn [map Py.incr]. destruct (eqb_str_spec k w) as [->|Hne].
  - f_equal. apply map_ext_in. intros u Hu.
    destruct (eqb_str_spec u w) as [->|]; [contradiction | reflexivity].
  - f_equal. apply IH. destruct Hin as [e|Hin]; [contradiction | exact Hin].
Qed.

Lemma incr_absent (f : text -> nat) (w : text) (keys : list text) :
  ~ In w keys ->
  Py.incr w (map (fun k => (k, f k)) keys)
  = (map (fun k => (k, f k)) keys ++ [(w, 1)]).
Proof.
  induction keys as [|k rest IH]; intro Hout; [reflexivity|].
  cbn [map Py.incr app]. destruct (eqb_str_spec k w) as [->|Hne].
  - exfalso. apply Hout. now left.
  - f_equal. apply IH. intro H. apply Hout. now right.
Qed.

(** The counter holds every distinct token once, in the order of first
    occurrence, with its number of occurrences. *)
Lemma Counter_eq (tokens : list text) :
  Py.Counter tokens
  = map (fun k => (k, count_occ str_dec tokens k)) (keyword_set tokens).
Proof.
  unfold Py.Counter.
  induction tokens as [|w tokens IH] using rev_ind; [reflexivity|].
  rewrite fold_left_app. cbn [fold_left]. rewrite IH, keyword_set_snoc.
  destruct (in_dec str_dec w tokens) as [Hin|Hout].
  - rewrite incr_present;
      [|apply keyword_set_NoDup | now apply keyword_set_in].
    apply map_ext. intro k. rewrite count_occ_app. cbn [count_occ].
    destruct (str_dec w k) as [e|n].
    + subst k. rewrite eqb_str_refl. f_equal. lia.
    + assert (E : (eqb_str k w) = false) by (apply eqb_str_neq; congruence).
      rewrite E. f_equal. lia.
  - rewrite incr_absent by (now rewrite keyword_set_in).
    rewrite map_app. cbn [map]. f_equal.
    + apply map_ext_in. intros k Hk. rewrite count_occ_app. cbn [count_occ].
      destruct (str_dec w k) as [e|n]; [|f_equal; lia].
      subst k. destruct (Hout (proj1 (keyword_set_in tokens w) Hk)).
    + rewrite count_occ_app. cbn [count_occ].
      rewrite (proj1 (count_occ_not_In str_dec tokens w) Hout).
      destruct (str_dec w w); [reflexivity | congruence].
Qed.

Lemma first_before_cons (t : text) (rest : list text) (x y : text) :
  y <> t -> first_before rest x y -> first_before (t :: rest) x y.
Proof.
  intros Hy [Hxy [pre [post [E Hpre]]]]. split; [exact Hxy|].
  exists (t :: pre), post. split; [now rewrite E|].
  intros [H|H]; [congruence | contradiction].
Qed.

(** The distinct tokens are listed in the order in which they are first
    met. *)
Lemma keyword_set_first_before (tokens : list text) :
  StronglySorted (first_before tokens) (keyword_set tokens).
Proof.
  induction tokens as [|t rest IH]; cbn [keyword_set]; constructor.
  - apply (StronglySorted_filter _ (fun u => negb (eqb_str u t))) in IH.
    apply (StronglySorted_weaken _ _ _ IH).
    intros x y _ Hy. apply first_before_cons.
    apply filter_In in Hy. destruct Hy as [_ Hy].
    now apply negb_true_iff, eqb_str_neq in Hy.
  - apply Forall_forall. intros y Hy.
    apply filter_In in Hy. destruct Hy as [_ Hy].
    apply negb_true_iff, eqb_str_neq in Hy.
    split; [congruence|]. exists [], rest. split; [reflexivity | intros []].
Qed.

Section Ranking.

Variable tokens : list text.

Lemma top_terms_firstn (n : nat) :
  top_terms tokens n = firstn n (ranking tokens).
Proof.
  unfold top_terms, Py.most_common, ranking. now rewrite firstn_map.
Qed.

Lemma ranking_perm : Permutation (ranking tokens) (keyword_set tokens).
Proof.
  unfold ranking. rewrite Counter_eq.
  eapply perm_trans.
  - apply Permutation_map, Permutation_sym, sort_desc_perm.
  - rewrite map_map. cbn [fst]. rewrite map_id. apply Permutation_refl.
Qed.

Lemma ranking_sorted :
  StronglySorted (ranks_before tokens) (ranking tokens).
Proof.
  unfold ranking. apply StronglySorted_map. rewrite Counter_eq.
  set (item := fun k : text => (k, count_occ str_dec tokens k)).
  assert (Hin : StronglySorted
                  (fun a b : text * nat =>
                     first_before tokens (fst a) (fst b))
                  (map item (keyword_set tokens))).
  { apply StronglySorted_map.
    exact (keyword_set_first_before tokens). }
  apply (sort_desc_ties snd) in Hin.
  apply (StronglySorted_weaken _ _ _ Hin).
  intros a b Ha Hb Hab.
  apply sort_desc_in, in_map_iff in Ha. destruct Ha as [x [<- _]].
  apply sort_desc_in, in_map_iff in Hb. destruct Hb as [y [<- _]].
  exact Hab.
Qed.

Lemma ranking_in (w : text) : In w (ranking tokens) <-> In w tokens.
Proof.
  split; intro H.
  - apply keyword_set_in. exact (Permutation_in _ ranking_perm H).
  - apply (Permutation_in _ (Permutation_sym ranking_perm)).
    now apply keyword_set_in.
Qed.

End Ranking.

(** C5. The top-terms operation returns the [n] tokens with the highest
    occurrence counts (all distinct tokens when there are fewer than [n]),
    each once, ordered by decreasing count; tokens with equal counts come
    in the order in which they are first met in the input; and every token
    left out ranks after every token returned.  [_extract_key_points]
    applies it with [n = 10] to the alphabetic tokens of the text that are
    not stop words and are longer than three characters. *)
Theorem top_terms_most_frequent_first (tokens : list text) (n : nat) :
  let top := top_terms tokens n in
  top = firstn n (ranking tokens)
  /\ Permutation (ranking tokens) (keyword_set tokens)
  /\ NoDup top
  /\ (forall w, In w top -> In w tokens)
  /\ List.length top = Nat.min n (List.length (keyword_set tokens))
  /\ StronglySorted
       (fun x y =>
          count_occ str_dec tokens y < count_occ str_dec tokens x \/
          (count_occ str_dec tokens x = count_occ str_dec tokens y /\
           first_before tokens x y))
       top
  /\ (forall x y, In x top -> In y tokens -> ~ In y top ->
                  ranks_before tokens x y)
  /\ (forall word_tokenize lower isalpha_char self,
         top_words word_tokenize lower isalpha_char self
         = top_terms (frequency_tokens word_tokenize lower isalpha_char self)
                     10).
Proof.
  intro top. subst top. rewrite top_terms_firstn.
  pose proof (ranking_sorted tokens) as Hs.
  pose proof (ranking_perm tokens) as Hp.
  rewrite <- (firstn_skipn n (ranking tokens)) in Hs.
  apply StronglySorted_app_inv in Hs. destruct Hs as [Hs Hcross].
  split; [reflexivity|]. split; [exact Hp|].
  split; [|split; [|split; [|split; [|split]]]].
  - assert (Hnd : NoDup (ranking tokens)).
    { apply (Permutation_NoDup (Permutation_sym Hp)), keyword_set_NoDup. }
    rewrite <- (firstn_skipn n (ranking tokens)) in Hnd.
    exact (NoDup_app_remove_r _ _ Hnd).
  - intros w Hw. apply ranking_in.
    rewrite <- (firstn_skipn n (ranking tokens)).
    apply in_or_app. now left.
  - rewrite length_firstn. now rewrite (Permutation_length Hp).
  - exact Hs.
  - intros x y Hx Hy Hnot. apply Hcross; [exact Hx|].
    apply ranking_in in Hy.
    rewrite <- (firstn_skipn n (ranking tokens)) in Hy.
    apply in_app_or in Hy. destruct Hy as [Hy|Hy]; [contradiction | exact Hy].
  - reflexivity.
Qed.

(* ================================================================== *)
(** ** Whitespace normalization and document processing *)
(* ================================================================== *)

Lemma split_space (c : char) (s : text) :
  Py.isspace c = true -> Py.split ((c :: s)) = Py.split s.
Proof. intro H. cbn [Py.split]. now rewrite H. Qed.

Lemma split_last (c : char) :
  Py.isspace c = false -> Py.split ([c]) = [[c]].
Proof. intro H. cbn [Py.split]. now rewrite H. Qed.

Lemma split_break (c c' : char) (s : text) :
  Py.isspace c = false -> Py.isspace c' = true ->
  Py.split ((c :: ((c' :: s))))
  = [c] :: Py.split ((c' :: s)).
Proof. intros H H'. cbn [Py.split]. now rewrite H, H'. Qed.

Lemma split_glue (c c' : char) (s : text) :
  Py.isspace c = false -> Py.isspace c' = false ->
  Py.split ((c :: ((c' :: s))))
  = Py.cons_head c (Py.split ((c' :: s))).
Proof. intros H H'. cbn [Py.split]. now rewrite H, H'. Qed.

Lemma split_head_nonspace (c : char) (s : text) :
  Py.isspace c = false -> Py.split ((c :: s)) <> [].
Proof.
  intro H. destruct s as [|c' s]; [now rewrite split_last|].
  destruct (Py.isspace c') eqn:H'.
  - now rewrite split_break.
  - rewrite split_glue by assumption.
    destruct (Py.split ((c' :: s))); discriminate.
Qed.

Lemma cons_head_app (c : char) (l m : list text) :
  l <> [] -> Py.cons_head c (l ++ m) = (Py.cons_head c l ++ m).
Proof. destruct l; [congruence | reflexivity]. Qed.

(** Every piece [split] returns is a word. *)
Lemma split_words (s : text) : Forall is_word (Py.split s).
Proof.
  induction s as [|c s IH]; [constructor|].
  destruct (Py.isspace c) eqn:H; [now rewrite split_space|].
  assert (Hc : is_word ([c])).
  { split; [discriminate|]. cbn [Py.forallb_str]. now rewrite H. }
  destruct s as [|c' s]; [rewrite split_last by assumption; now constructor|].
  destruct (Py.isspace c') eqn:H'.
  - rewrite split_break by assumption. now constructor.
  - rewrite split_glue by assumption.
    destruct (Py.split ((c' :: s))) as [|w ws]; [now constructor|].
    inversion IH as [|? ? [Hw1 Hw2] Hws]; subst.
    constructor; [|exact Hws]. split; [discriminate|].
    cbn [Py.forallb_str]. now rewrite H, Hw2.
Qed.

(** Splitting distributes over a whitespace character. *)
Lemma split_app_space (a : text) (c : char) (b : text) :
  Py.isspace c = true ->
  Py.split (a ++ (c :: b)) = (Py.split a ++ Py.split b).
Proof.
  intro Hc. induction a as [|x a IH]; cbn [app].
  - now rewrite split_space.
  - destruct (Py.isspace x) eqn:Hx; [now rewrite !split_space|].
    destruct a as [|y a]; cbn [app] in *.
    + rewrite split_break, split_last, split_space by assumption.
      reflexivity.
    + destruct (Py.isspace y) eqn:Hy.
      * rewrite !split_break by assumption. now rewrite IH.
      * rewrite !split_glue by assumption. rewrite IH.
        apply cons_head_app. now apply split_head_nonspace.
Qed.

Lemma split_word (w : text) : is_word w -> Py.split w = [w].
Proof.
  induction w as [|c w IH]; intros [Hne Hw]; [congruence|].
  cbn [Py.forallb_str] in Hw. apply andb_true_iff in Hw.
  destruct Hw as [Hc Hw]. apply negb_true_iff in Hc.
  destruct w as [|c' w]; [now apply split_last|].
  assert (Hc' : Py.isspace c' = false).
  { cbn [Py.forallb_str] in Hw. apply andb_true_iff in Hw.
    now apply negb_true_iff. }
  rewrite split_glue by assumption.
  rewrite IH by (split; [discriminate | exact Hw]). reflexivity.
Qed.

Lemma join_cons (sep p q : text) (rest : list text) :
  Py.join sep (p :: q :: rest) = p ++ sep ++ Py.join sep (q :: rest).
Proof. reflexivity. Qed.

(** Joining words with single spaces and splitting again gives the words
    back. *)
Lemma split_join_words (ws : list text) :
  Forall is_word ws -> Py.split (Py.join space ws) = ws.
Proof.
  induction 1 as [|w ws Hw Hws IH]; [reflexivity|].
  destruct ws as [|w2 ws].
  - now apply split_word.
  - rewrite join_cons.
    change (space ++ Py.join space (w2 :: ws))
      with (32%N :: Py.join space (w2 :: ws)).
    rewrite split_app_space by reflexivity.
    rewrite IH. now rewrite split_word.
Qed.

(** Whitespace normalization is idempotent. *)
Lemma normalize_normalized (s : text) :
  normalized (Py.join space (Py.split s)).
Proof.
  unfold normalized. now rewrite split_join_words by apply split_words.
Qed.

Lemma rstrip_truthy (s : text) :
  Py.truthy (Py.rstrip s)
  = Py.existsb_str (fun c => negb (Py.isspace c)) s.
Proof.
  induction s as [|c s IH]; [reflexivity|].
  cbn [Py.rstrip Py.existsb_str]. rewrite <- IH.
  destruct (Py.rstrip s); cbn [Py.truthy].
  - destruct (Py.isspace c); reflexivity.
  - now rewrite orb_true_r.
Qed.

Lemma lstrip_exists (s : text) :
  Py.existsb_str (fun c => negb (Py.isspace c)) (Py.lstrip s)
  = Py.existsb_str (fun c => negb (Py.isspace c)) s.
Proof.
  induction s as [|c s IH]; [reflexivity|].
  cbn [Py.lstrip]. destruct (Py.isspace c) eqn:H; [|reflexivity].
  cbn [Py.existsb_str]. now rewrite H, IH.
Qed.

Lemma split_nonempty (s : text) :
  Py.nonempty (Py.split s)
  = Py.existsb_str (fun c => negb (Py.isspace c)) s.
Proof.
  induction s as [|c s IH]; [reflexivity|].
  cbn [Py.existsb_str]. destruct (Py.isspace c) eqn:H.
  - now rewrite split_space.
  - cbn [negb orb]. apply nonempty_true_iff. now apply split_head_nonspace.
Qed.

(** A sentence that is not blank has at least one word. *)
Lemma strip_truthy_split (s : text) :
  Py.truthy (Py.strip s) = true -> Py.split s <> [].
Proof.
  unfold Py.strip. rewrite rstrip_truthy, lstrip_exists, <- split_nonempty.
  apply nonempty_true_iff.
Qed.

Lemma join_words_nonempty (ws : list text) :
  ws <> [] -> Forall is_word ws -> Py.join space ws <> [].
Proof.
  intros Hne Hws. destruct ws as [|w ws]; [congruence|].
  inversion Hws as [|? ? [Hw _] _]; subst.
  destruct w as [|c w]; [congruence|].
  destruct ws; cbn [Py.join app]; discriminate.
Qed.

(** The words of the combined text are the words of the texts, in order. *)
Lemma split_join_texts (texts : list text) :
  Py.split (Py.join (nl ++ nl) texts) = flat_map Py.split texts.
Proof.
  induction texts as [|t texts IH]; [reflexivity|].
  destruct texts as [|t2 texts].
  - cbn [Py.join flat_map]. now rewrite app_nil_r.
  - rewrite join_cons. cbn [flat_map] in *.
    assert (Hsep : forall rest,
               (nl ++ nl) ++ rest = 10%N :: 10%N :: rest)
      by reflexivity.
    rewrite Hsep, split_app_space by reflexivity.
    rewrite split_space by reflexivity.
    now rewrite IH.
Qed.

Lemma all_text_loop (files : list UploadedFile) :
  forall acc : list text,
    fold_left (fun all_text f => (all_text ++ read_file f)) files acc
    = (acc ++ flat_map read_file files).
Proof.
  induction files as [|f files IH]; intro acc; cbn [fold_left flat_map].
  - now rewrite app_nil_r.
  - rewrite IH. now rewrite app_assoc.
Qed.

Lemma process_documents_eq
    (self : RAGSummarizer) (uploaded_files : list UploadedFile) :
  process_documents sent_tokenize self uploaded_files
  = let all_text := flat_map read_file uploaded_files in
    if Py.nonempty all_text then
      let processed := Py.join space (flat_map Py.split all_text) in
      (true,
       {| documents :=
            map (fun sentence => Py.join space (Py.split sentence))
                (filter (fun sentence => Py.truthy (Py.strip sentence))
                        (sent_tokenize processed));
          processed_text := processed;
          stop_words := stop_words self |})
    else (false, self).
Proof.
  unfold process_documents. rewrite all_text_loop. cbn [app].
  destruct (Py.nonempty (flat_map read_file uploaded_files)); cbn [negb];
    [|reflexivity].
  cbv zeta. now rewrite split_join_texts.
Qed.







(* ================================================================== *)
(** ** Further properties of document processing *)
(* ================================================================== *)

Lemma flat_map_nil {A B : Type} (f : A -> list B) (l : list A) :
  flat_map f l = [] <-> forall x, In x l -> f x = [].
Proof.
  induction l as [|a l IH]; cbn [flat_map].
  - split; [intros _ x [] | reflexivity].
  - split.
    + intro H. apply app_eq_nil in H. destruct H as [Ha Hl].
      intros x [<-|Hx]; [exact Ha | now apply IH].
    + intro H. rewrite (H a (or_introl eq_refl)). apply IH.
      intros x Hx. apply H. now right.
Qed.

Lemma forallb_str_app (p : char -> bool) (a b : text) :
  Py.forallb_str p (a ++ b) = Py.forallb_str p a && Py.forallb_str p b.
Proof.
  induction a as [|c a IH]; cbn [app Py.forallb_str]; [reflexivity|].
  now rewrite IH, andb_assoc.
Qed.

Lemma forallb_str_impl (p q : char -> bool) (s : text) :
  (forall c, p c = true -> q c = true) ->
  Py.forallb_str p s = true -> Py.forallb_str q s = true.
Proof.
  intro Himp. induction s as [|c s IH]; cbn [Py.forallb_str]; [reflexivity|].
  rewrite !andb_true_iff. intros [Hc Hs]. split; [now apply Himp | now apply
      IH].
Qed.

(** In a normalized text the only whitespace characters are spaces. *)
Lemma join_words_only_spaces (ws : list text) :
  Forall is_word ws ->
  Py.forallb_str (fun c => negb (Py.isspace c) || (c =? 32)%N)
                 (Py.join space ws) = true.
Proof.
  assert (Hword : forall w, is_word w ->
            Py.forallb_str (fun c => negb (Py.isspace c) || (c =? 32)%N) w
            = true).
  { intros w [_ Hw]. revert Hw. apply forallb_str_impl.
    intros c Hc. now rewrite Hc. }
  induction 1 as [|w ws Hw Hws IH]; [reflexivity|].
  destruct ws as [|w2 ws]; [now apply Hword|].
  rewrite join_cons, !forallb_str_app, IH, (Hword w Hw). reflexivity.
Qed.

Lemma rstrip_app (a b : text) :
  Py.rstrip b = b -> b <> [] -> Py.rstrip (a ++ b) = a ++ b.
Proof.
  intros Hb Hne. induction a as [|c a IH]; cbn [app]; [exact Hb|].
  cbn [Py.rstrip]. rewrite IH.
  destruct (a ++ b) eqn:E; [|reflexivity].
  destruct a; cbn [app] in E; [contradiction | discriminate].
Qed.

Lemma rstrip_word (w : text) : is_word w -> Py.rstrip w = w.
Proof.
  induction w as [|c w IH]; intros [Hne Hw]; [congruence|].
  cbn [Py.forallb_str] in Hw. apply andb_true_iff in Hw.
  destruct Hw as [Hc Hw]. apply negb_true_iff in Hc.
  cbn [Py.rstrip]. destruct w as [|c' w].
  - cbn [Py.rstrip]. now rewrite Hc.
  - rewrite IH by (split; [discriminate | exact Hw]). reflexivity.
Qed.

(** A normalized text has no leading and no trailing whitespace. *)
Lemma strip_join_words (ws : list text) :
  Forall is_word ws -> Py.strip (Py.join space ws) = Py.join space ws.
Proof.
  intro Hws. unfold Py.strip.
  assert (Hl : Py.lstrip (Py.join space ws) = Py.join space ws).
  { destruct Hws as [|w ws [Hne Hw] Hws]; [reflexivity|].
    destruct w as [|c w]; [congruence|].
    cbn [Py.forallb_str] in Hw. apply andb_true_iff in Hw.
    destruct Hw as [Hc _]. apply negb_true_iff in Hc.
    destruct ws; [|rewrite join_cons]; cbn [Py.join app Py.lstrip];
      now rewrite Hc. }
  rewrite Hl. clear Hl.
  induction Hws as [|w ws Hw Hws IH]; [reflexivity|].
  destruct ws as [|w2 ws]; [now apply rstrip_word|].
  rewrite join_cons. apply rstrip_app.
  - apply (rstrip_app space); [exact IH|].
    apply join_words_nonempty; [discriminate | exact Hws].
  - discriminate.
Qed.

(** X1. [process_documents] returns [False] exactly when no uploaded file
    yields a text (in particular for an empty upload list), and then it
    leaves the summarizer as it was. *)
Theorem process_documents_fails_iff_no_text (self : RAGSummarizer)
    (uploaded_files : list UploadedFile) :
  (fst (process_documents sent_tokenize self uploaded_files) = false <->
   forall f, In f uploaded_files -> read_file f = [])
  /\
  (fst (process_documents sent_tokenize self uploaded_files) = false ->
   snd (process_documents sent_tokenize self uploaded_files) = self)
  /\
  process_documents sent_tokenize self [] = (false, self).
Proof.
  rewrite process_documents_eq. cbv zeta.
  rewrite <- flat_map_nil, <- nonempty_false_iff.
  destruct (Py.nonempty (flat_map read_file uploaded_files));
    cbn [fst snd]; repeat split; congruence.
Qed.

(** X2. A file whose load raises is skipped: the result is the one the
    other files give. *)
Theorem process_documents_skips_failed_file (self : RAGSummarizer)
    (before after : list UploadedFile) (failed : UploadedFile) :
  (if Py.endswith (name failed) (T ".pdf") then pdf_pages failed = Raised
   else text_content failed = Raised) ->
  process_documents sent_tokenize self (before ++ failed :: after)
  = process_documents sent_tokenize self (before ++ after).
Proof.
  intro H.
  assert (E : read_file failed = []).
  { unfold read_file. destruct (Py.endswith (name failed) (T ".pdf"));
      now rewrite H. }
  rewrite !process_documents_eq, !flat_map_app. cbn [flat_map].
  now rewrite E.
Qed.

(** X3. After a successful [process_documents] call the processed text is
    whitespace-normalized: normalizing it again changes nothing, its only
    whitespace characters are spaces, and it has no leading or trailing
    whitespace. *)
Theorem processed_text_normalized (self self' : RAGSummarizer)
    (uploaded_files : list UploadedFile) :
  process_documents sent_tokenize self uploaded_files = (true, self') ->
  Py.join space (Py.split (processed_text self')) = processed_text self'
  /\ Py.forallb_str (fun c => negb (Py.isspace c) || (c =? 32)%N)
                    (processed_text self') = true
  /\ Py.strip (processed_text self') = processed_text self'.
Proof.
  intro H. rewrite process_documents_eq in H. cbv zeta in H.
  destruct (Py.nonempty (flat_map read_file uploaded_files));
    [|discriminate].
  inversion H; subst; clear H. cbn [processed_text].
  assert (Hws : Forall is_word
                  (flat_map Py.split (flat_map read_file uploaded_files))).
  { apply Forall_flat_map, Forall_forall. intros t _. apply split_words. }
  split; [|split].
  - now rewrite split_join_words.
  - now apply join_words_only_spaces.
  - now apply strip_join_words.
Qed.

Lemma process_documents_stop_words (self : RAGSummarizer)
    (uploaded_files : list UploadedFile) :
  stop_words (snd (process_documents sent_tokenize self uploaded_files))
  = stop_words self.
Proof.
  rewrite process_documents_eq. cbv zeta.
  destruct (Py.nonempty (flat_map read_file uploaded_files)); reflexivity.
Qed.

(** X4. File boundaries leave no trace: cutting a text in two at a
    whitespace character and uploading the halves as consecutive texts
    gives the same processed text and the same corpus as the uncut text. *)
Theorem process_documents_file_boundary (self : RAGSummarizer)
    (files1 files2 : list UploadedFile)
    (pre post : list text) (a b : text) (c : char) :
  Py.isspace c = true ->
  flat_map read_file files1 = (pre ++ (a ++ c :: b) :: post) ->
  flat_map read_file files2 = (pre ++ a :: b :: post) ->
  process_documents sent_tokenize self files1
  = process_documents sent_tokenize self files2.
Proof.
  intros Hc H1 H2. rewrite !process_documents_eq, H1, H2. cbv zeta.
  assert (E : flat_map Py.split (pre ++ (a ++ c :: b) :: post)
              = flat_map Py.split (pre ++ a :: b :: post)).
  { rewrite !flat_map_app. cbn [flat_map].
    rewrite split_app_space by exact Hc. now rewrite <- app_assoc. }
  rewrite E. destruct pre; reflexivity.
Qed.

(** X5. Processing replaces the corpus wholesale: a successful call gives
    the same result whatever was processed before, and a failed call keeps
    the result of the previous one. *)
Theorem process_documents_replaces_corpus (self : RAGSummarizer)
    (first_files second_files : list UploadedFile) :
  let previous := snd (process_documents sent_tokenize self first_files) in
  (fst (process_documents sent_tokenize self second_files) = true ->
   process_documents sent_tokenize previous second_files
   = process_documents sent_tokenize self second_files)
  /\
  (fst (process_documents sent_tokenize self second_files) = false ->
   process_documents sent_tokenize previous second_files = (false, previous)).
Proof.
  intro previous.
  pose proof (process_documents_stop_words self first_files)
    as Hsw.
  fold previous in Hsw.
  rewrite (process_documents_eq self second_files),
          (process_documents_eq previous second_files).
  cbv zeta. rewrite Hsw.
  destruct (Py.nonempty (flat_map read_file second_files)); cbn [fst];
    split; intro H; try discriminate; reflexivity.
Qed.

(** X6. A call can succeed and leave the corpus empty: when every text read
    consists of whitespace only (and the sentence tokenizer finds no
    sentence in the empty text), [process_documents] returns [True] with an
    empty corpus and an empty processed text, and every summary and every
    answer is then "No documents processed yet.". *)
Theorem process_documents_blank_texts
    (self : RAGSummarizer) (uploaded_files : list UploadedFile) :
  sent_tokenize [] = [] ->
  flat_map read_file uploaded_files <> [] ->
  (forall text, In text (flat_map read_file uploaded_files) ->
                Py.strip text = []) ->
  let result := process_documents sent_tokenize self uploaded_files in
  result = (true, {| documents := []; processed_text := [];
                     stop_words := stop_words self |})
  /\ (forall kind, generate_summary word_tokenize lower isalpha_char (snd
      result) kind
                   = T "No documents processed yet.")
  /\ (forall question, ask_question word_tokenize lower isalpha_char (snd
      result) question
                       = T "No documents processed yet.").
Proof.
  intros Htok Hne Hblank result.
  assert (E : result = (true, {| documents := [];
                                 processed_text := [];
                                 stop_words := stop_words self |})).
  { subst result. rewrite process_documents_eq. cbv zeta.
    apply nonempty_true_iff in Hne. rewrite Hne.
    assert (Hw : flat_map Py.split (flat_map read_file uploaded_files) = []).
    { apply flat_map_nil. intros t Ht. specialize (Hblank t Ht).
      destruct (Py.split t) eqn:Es; [reflexivity|].
      assert (Hs : Py.truthy (Py.strip t) = true).
      { unfold Py.strip.
        rewrite rstrip_truthy, lstrip_exists, <- split_nonempty.
        now rewrite Es. }
      rewrite Hblank in Hs. discriminate. }
    rewrite Hw. cbn [Py.join]. now rewrite Htok. }
  rewrite E. cbn [snd]. repeat split.
Qed.

(* ================================================================== *)
(** ** Further properties of cleaning and scoring *)
(* ================================================================== *)

Lemma split_lstrip (s : text) : Py.split (Py.lstrip s) = Py.split s.
Proof.
  induction s as [|c s IH]; [reflexivity|].
  cbn [Py.lstrip]. destruct (Py.isspace c) eqn:H; [|reflexivity].
  now rewrite split_space.
Qed.

Lemma rstrip_head (s r : text) (a : char) :
  Py.rstrip s = (a :: r) -> exists t, s = a :: t.
Proof.
  destruct s as [|c s]; cbn [Py.rstrip]; [discriminate|].
  destruct (Py.rstrip s); [destruct (Py.isspace c)|];
    intro H; inversion H; subst; now eexists.
Qed.

Lemma split_rstrip (s : text) : Py.split (Py.rstrip s) = Py.split s.
Proof.
  induction s as [|c s IH]; [reflexivity|].
  cbn [Py.rstrip]. destruct (Py.rstrip s) as [|a r] eqn:E.
  - cbn [Py.split] in IH.
    destruct (Py.isspace c) eqn:Hc.
    + now rewrite split_space.
    + rewrite split_last by exact Hc.
      destruct s as [|c' s]; [now rewrite split_last|].
      destruct (Py.isspace c') eqn:Hc'.
      * rewrite split_break by assumption. now rewrite <- IH.
      * exfalso. symmetry in IH. revert IH.
        now apply split_head_nonspace.
  - destruct (rstrip_head _ _ _ E) as [t ->].
    destruct (Py.isspace c) eqn:Hc;
      [rewrite (split_space c ((a :: r))), (split_space c ((a :: t)))
         by exact Hc; exact IH|].
    destruct (Py.isspace a) eqn:Ha.
    + rewrite !split_break by assumption. now rewrite IH.
    + rewrite !split_glue by assumption. now rewrite IH.
Qed.

(** Stripping before splitting is redundant. *)
Lemma clean_sentence_eq (sentence : text) :
  clean_sentence sentence = Py.join space (Py.split sentence).
Proof.
  unfold clean_sentence, Py.strip. now rewrite split_rstrip, split_lstrip.
Qed.

(** X7. Cleaning a sentence is whitespace normalization and is idempotent:
    the result is a list of words joined by single spaces, and cleaning it
    again changes nothing. *)
Theorem clean_sentence_idempotent (sentence : text) :
  clean_sentence (clean_sentence sentence) = clean_sentence sentence
  /\ Py.split (clean_sentence sentence) = Py.split sentence
  /\ Py.strip (clean_sentence sentence) = clean_sentence sentence
  /\ Py.forallb_str (fun c => negb (Py.isspace c) || (c =? 32)%N)
                    (clean_sentence sentence) = true.
Proof.
  rewrite !clean_sentence_eq.
  pose proof (split_words sentence) as Hws.
  rewrite (split_join_words _ Hws).
  repeat split.
  - now apply strip_join_words.
  - now apply join_words_only_spaces.
Qed.

(** X8. After a successful [process_documents] call cleaning is the
    identity on the corpus: summaries and answers print corpus sentences
    verbatim. *)
Theorem corpus_sentences_are_clean (self self' : RAGSummarizer)
    (uploaded_files : list UploadedFile) :
  process_documents sent_tokenize self uploaded_files = (true, self') ->
  map clean_sentence (documents self') = documents self'.
Proof.
  intro H. rewrite process_documents_eq in H. cbv zeta in H.
  destruct (Py.nonempty (flat_map read_file uploaded_files));
    [|discriminate].
  inversion H; subst; clear H. cbn [documents].
  rewrite map_map. apply map_ext. intro s.
  rewrite clean_sentence_eq. apply normalize_normalized.
Qed.

Lemma count_if_le {A : Type} (p : A -> bool) (xs : list A) :
  Py.count_if p xs <= List.length xs.
Proof. unfold Py.count_if. apply filter_length_le. Qed.

Lemma count_if_map {A B : Type} (f : A -> B) (p : B -> bool) (xs : list A) :
  Py.count_if p (map f xs) = Py.count_if (fun x => p (f x)) xs.
Proof.
  unfold Py.count_if. induction xs as [|x xs IH]; [reflexivity|].
  cbn [map filter]. destruct (p (f x)); cbn [List.length]; now rewrite IH.
Qed.

Lemma count_if_perm {A : Type} (p : A -> bool) (xs ys : list A) :
  Permutation xs ys -> Py.count_if p xs = Py.count_if p ys.
Proof.
  unfold Py.count_if.
  induction 1 as [|x l l' _ IH|x y l|l l' l'' _ IH1 _ IH2];
    cbn [filter]; try reflexivity.
  - destruct (p x); cbn [List.length]; now rewrite IH.
  - destruct (p x), (p y); reflexivity.
  - now rewrite IH1.
Qed.

Lemma count_if_zero {A : Type} (p : A -> bool) (xs : list A) :
  Py.count_if p xs = 0 <-> forall x, In x xs -> p x = false.
Proof.
  unfold Py.count_if. rewrite length_zero_iff_nil. apply filter_none.
Qed.

(** X9. The score is bounded by the number of keywords and does not depend
    on the order of the keywords; it is zero exactly when no keyword,
    lower-cased by [str.lower], is a substring of the lower-cased sentence,
    so without keywords it is zero; and it depends on the sentence and on
    the keywords through their lower-casings only: sentences with the same
    lower-casing score the same, and so do keyword lists with the same
    lower-casings. *)
Theorem score_bounded_order_insensitive
    (words : list text) (sentence : text) :
  score lower words sentence <= List.length words
  /\ (forall words', Permutation words words' ->
                     score lower words' sentence = score lower words sentence)
  /\ (score lower words sentence = 0 <->
      forall word, In word words ->
                   Py.contains (lower word) (lower sentence) = false)
  /\ score lower [] sentence = 0
  /\ (forall sentence', lower sentence' = lower sentence ->
                        score lower words sentence' = score lower words
                            sentence)
  /\ (forall words', map lower words' = map lower words ->
                     score lower words' sentence = score lower words sentence).
Proof.
  unfold score. split; [apply count_if_le|].
  split; [intros words' H; symmetry; now apply count_if_perm|].
  split; [apply count_if_zero|].
  split; [reflexivity|].
  split; [intros sentence' H; now rewrite H|].
  intros words' H.
  rewrite <- (count_if_map lower
                (fun w => Py.contains w (lower sentence)) words'),
          <- (count_if_map lower
                (fun w => Py.contains w (lower sentence)) words).
  now rewrite H.
Qed.

(* ================================================================== *)
(** ** Further properties of ranking *)
(* ================================================================== *)

(** The head of the sorted list is the first element of the input that has
    the largest key. *)
Lemma sort_desc_head {A : Type} (key : A -> nat) (l : list A) :
  forall (x : A) (rest : list A),
    Py.sort_desc key l = x :: rest ->
    exists pre post,
      l = (pre ++ x :: post) /\
      (forall y, In y pre -> key y < key x) /\
      (forall y, In y post -> key y <= key x).
Proof.
  induction l as [|a l IH]; intros x rest H; [discriminate|].
  cbn [Py.sort_desc] in H.
  destruct (Py.sort_desc key l) as [|y r] eqn:E.
  - apply sort_desc_nil in E. subst l. cbn in H. inversion H; subst.
    exists [], []. repeat split; intros z [].
  - destruct (IH y r eq_refl) as [pre [post [El [Hpre Hpost]]]].
    cbn [Py.insert_desc] in H.
    destruct (key a <? key y)%nat eqn:Lt; inversion H; subst; clear H.
    + apply Nat.ltb_lt in Lt. exists (a :: pre), post.
      split; [reflexivity|]. split; [|exact Hpost].
      intros z [<-|Hz]; [exact Lt | now apply Hpre].
    + apply Nat.ltb_ge in Lt. exists [], (pre ++ y :: post).
      split; [reflexivity|]. split; [intros z []|].
      intros z Hz. apply in_app_or in Hz.
      destruct Hz as [Hz|[<-|Hz]].
      * specialize (Hpre z Hz). lia.
      * exact Lt.
      * specialize (Hpost z Hz). lia.
Qed.

Lemma filter_map_split {A B : Type} (f : A -> B) (p : B -> bool)
    (l : list A) :
  forall (pre post : list B) (x : B),
    filter p (map f l) = (pre ++ x :: post) ->
    exists l1 d l2,
      l = (l1 ++ d :: l2) /\ f d = x /\
      filter p (map f l1) = pre /\ filter p (map f l2) = post.
Proof.
  induction l as [|a l IH]; intros pre post x H; cbn [map filter] in H.
  - destruct pre; discriminate.
  - destruct (p (f a)) eqn:E.
    + destruct pre as [|b pre]; cbn [app] in H; inversion H; subst.
      * exists [], a, l. repeat split.
      * destruct (IH pre post x H2) as [l1 [d [l2 [El [Ed [E1 E2]]]]]].
        exists (a :: l1), d, l2. subst l. repeat split; try assumption.
        cbn [map filter]. now rewrite E, E1.
    + destruct (IH pre post x H) as [l1 [d [l2 [El [Ed [E1 E2]]]]]].
      exists (a :: l1), d, l2. subst l. repeat split; try assumption.
      cbn [map filter]. now rewrite E.
Qed.

(** X10. The first ranked sentence is the best match: it reaches the
    threshold, no sentence of the corpus scores higher, and every sentence
    that stands before it in the corpus scores strictly lower. *)
Theorem rank_sentences_best_first
    (words : list text) (minScore : nat) (corpus : list text)
    (best_score : nat) (best : text) (rest : list (nat * text)) :
  rank_sentences lower words (fun score => (minScore <=? score)%nat) corpus
  = (best_score, best) :: rest ->
  best_score = score lower words best
  /\ minScore <= best_score
  /\ (forall sentence, In sentence corpus ->
                       score lower words sentence <= best_score)
  /\ exists earlier later,
       corpus = (earlier ++ best :: later) /\
       forall sentence, In sentence earlier ->
                        score lower words sentence < best_score.
Proof.
  intro H. rewrite rank_sentences_eq in H.
  destruct (sort_desc_head _ _ _ _ H) as [pre [post [E [Hpre Hpost]]]].
  unfold retained in E.
  destruct (filter_map_split _ _ _ _ _ _ E)
    as [l1 [d [l2 [El [Ed [E1 E2]]]]]].
  inversion Ed; subst best_score best. clear Ed.
  assert (Hmin : minScore <= score lower words d).
  { assert (Hin : In (score lower words d, d)
                     (filter (fun p => (minScore <=? fst p)%nat)
                        (map (fun s => (score lower words s, s)) corpus))).
    { rewrite E. apply in_or_app. right. now left. }
    apply filter_In in Hin. destruct Hin as [_ Hin].
    now apply Nat.leb_le in Hin. }
  assert (Hside : forall (side : list text) (bound : nat -> Prop),
             (forall n, n < minScore -> bound n) ->
             (forall y, In y (filter (fun p => (minScore <=? fst p)%nat)
                                (map (fun s => (score lower words s, s)) side))
                                    ->
                        bound (fst y)) ->
             forall s, In s side -> bound (score lower words s)).
  { intros side bound Hlow Hall s Hs.
    destruct (minScore <=? score lower words s)%nat eqn:Ek.
    - apply (Hall (score lower words s, s)). apply filter_In. split; [|exact
          Ek].
      apply in_map_iff. now exists s.
    - apply Hlow. now apply Nat.leb_gt in Ek. }
  split; [reflexivity|]. split; [exact Hmin|]. split.
  - intros s Hs. subst corpus. apply in_app_or in Hs.
    destruct Hs as [Hs|[<-|Hs]].
    + apply Nat.lt_le_incl.
      apply (Hside l1 (fun n => n < score lower words d)); try assumption.
      * intros n Hn. lia.
      * intros y Hy. rewrite E1 in Hy. exact (Hpre y Hy).
    + apply Nat.le_refl.
    + apply (Hside l2 (fun n => n <= score lower words d)); try assumption.
      * intros n Hn. lia.
      * intros y Hy. rewrite E2 in Hy. exact (Hpost y Hy).
  - exists l1, l2. split; [exact El|].
    intros s Hs.
    apply (Hside l1 (fun n => n < score lower words d)); try assumption.
    + intros n Hn. lia.
    + intros y Hy. rewrite E1 in Hy. exact (Hpre y Hy).
Qed.

(* ================================================================== *)
(** ** Further properties of answers and summaries *)
(* ================================================================== *)

Lemma str_app_inv_head (a x y : text) : a ++ x = a ++ y -> x = y.
Proof.
  induction a as [|c a IH]; cbn [app]; intro H; [exact H|].
  inversion H. now apply IH.
Qed.

Lemma str_app_nonempty (a b : text) :
  b <> [] -> a ++ b <> [].
Proof.
  destruct a; cbn [app]; [trivial | discriminate].
Qed.

Lemma numbered_from_empty (i : nat) (items : list text) :
  numbered_from i items = [] <-> items = [].
Proof.
  destruct items as [|item rest]; cbn [numbered_from].
  - split; reflexivity.
  - split; [|discriminate]. intro H. exfalso. revert H.
    apply str_app_nonempty. discriminate.
Qed.

Lemma in_firstn {A : Type} (n : nat) (l : list A) (x : A) :
  In x (firstn n l) -> In x l.
Proof.
  intro H. rewrite <- (firstn_skipn n l). apply in_or_app. now left.
Qed.

(** No sentence is retained at threshold one exactly when no keyword occurs
    in any sentence. *)
Lemma retained_none (words corpus : list text) :
  retained lower words 1 corpus = [] <->
  forall d w, In d corpus -> In w words ->
              Py.contains (lower w) (lower d) = false.
Proof.
  unfold retained. rewrite filter_none. split.
  - intros H d w Hd Hw.
    assert (Hin : In (score lower words d, d)
                     (map (fun s => (score lower words s, s)) corpus))
      by (apply in_map_iff; now exists d).
    specialize (H _ Hin). cbn [fst] in H. apply Nat.leb_gt in H.
    assert (Hz : score lower words d = 0) by lia.
    unfold score in Hz. rewrite count_if_zero in Hz. now apply Hz.
  - intros H [sc s] Hin. apply in_map_iff in Hin.
    destruct Hin as [d [E Hd]]. inversion E; subst. cbn [fst].
    apply Nat.leb_gt.
    assert (Hz : score lower words s = 0)
      by (unfold score; apply count_if_zero; intros w Hw; now apply H).
    lia.
Qed.

Lemma answer_from_no_relevant (keywords corpus : list text)
    (question : text) :
  answer_from lower keywords corpus question
  = T "No relevant information found for your question."
  <-> retained lower keywords 1 corpus = [].
Proof.
  unfold answer_from, answer_header.
  rewrite <- (sort_desc_nil fst), <- nonempty_false_iff.
  destruct (Py.nonempty (Py.sort_desc fst (retained lower keywords 1 corpus)));
    cbn [app]; split; intro H; try reflexivity; discriminate.
Qed.

Lemma answer_from_not_no_documents (keywords corpus : list text)
    (question : text) :
  answer_from lower keywords corpus question <>
      (T "No documents processed yet.").
Proof.
  unfold answer_from, answer_header.
  destruct (Py.nonempty (Py.sort_desc _ _)); cbn [app]; discriminate.
Qed.

(** X11. [ask_question] returns "No documents processed yet." exactly when
    the corpus is empty, and "No relevant information found for your
    question." exactly when the corpus is not empty, the question has a
    keyword, and no keyword of the question, lower-cased by [str.lower], is
    a substring of a lower-cased corpus sentence. *)
Theorem ask_question_fixed_messages (self : RAGSummarizer)
    (question : text) :
  (ask_question word_tokenize lower isalpha_char self question =
      T "No documents processed yet."
   <-> documents self = [])
  /\
  (ask_question word_tokenize lower isalpha_char self question
   = T "No relevant information found for your question."
   <-> documents self <> [] /\
       question_words word_tokenize lower isalpha_char self question <> [] /\
       forall d w,
         In d (documents self) ->
         In w (question_words word_tokenize lower isalpha_char self question) ->
         Py.contains (lower w) (lower d) = false).
Proof.
  destruct (documents self) as [|d0 ds] eqn:Ed.
  - assert (E : ask_question word_tokenize lower isalpha_char self question
                = T "No documents processed yet.")
      by (unfold ask_question; now rewrite Ed).
    rewrite E. split; [propositional|].
    split; [discriminate | intros [H _]; congruence].
  - assert (Hd : documents self <> []) by (rewrite Ed; discriminate).
    destruct (question_words word_tokenize lower isalpha_char self question) as
        [|w0 ws] eqn:Ew.
    + assert (E : ask_question word_tokenize lower isalpha_char self question
                  = T "Please ask a more specific question with keywords.").
      { unfold ask_question. apply nonempty_true_iff in Hd.
        now rewrite Hd, Ew. }
      rewrite E. split; split; try discriminate.
      intros [_ [H _]]. congruence.
    + assert (Hw : question_words word_tokenize lower isalpha_char self
          question <> [])
        by (rewrite Ew; discriminate).
      rewrite (ask_question_eq _ _ Hd Hw), Ew, Ed.
      split.
      * split; [|discriminate].
        intro H. exfalso. revert H. apply answer_from_not_no_documents.
      * rewrite answer_from_no_relevant, retained_none.
        split; [intro H; repeat split; try discriminate; exact H|].
        intros [_ [_ H]]. exact H.
Qed.

(** X12. When some keyword of the question, lower-cased by [str.lower], is
    a substring of some lower-cased corpus sentence, the answer is the
    header followed by a numbered list of between one and five cleaned
    corpus sentences, and each of them has a lower-cased keyword of the
    question as a substring of its lower-casing. *)
Theorem ask_question_lists_matching_sentences (self : RAGSummarizer)
    (question : text) :
  (exists d w,
      In d (documents self) /\
      In w (question_words word_tokenize lower isalpha_char self question) /\
      Py.contains (lower w) (lower d) = true) ->
  exists listed : list text,
    ask_question word_tokenize lower isalpha_char self question
    = T "**Answer to: " ++ question ++ T "**" ++ nl ++ nl
        ++ T "Based on the document content:" ++ nl ++ nl
        ++ numbered_list (map clean_sentence listed)
    /\ 1 <= List.length listed <= 5
    /\ Forall (fun sentence =>
                 In sentence (documents self) /\
                 exists w,
                   In w (question_words word_tokenize lower isalpha_char self
                       question) /\
                   Py.contains (lower w) (lower sentence) = true)
              listed.
Proof.
  intros [d [w [Hd [Hw Hc]]]].
  assert (Hdocs : documents self <> []) by (intro E; now rewrite E in Hd).
  assert (Hwords : question_words word_tokenize lower isalpha_char self
      question <> [])
    by (intro E; now rewrite E in Hw).
  set (words := question_words word_tokenize lower isalpha_char self question)
      in *.
  set (ranked := Py.sort_desc fst (retained lower words 1 (documents self))).
  assert (Hne : ranked <> []).
  { unfold ranked. rewrite sort_desc_nil, retained_none. intro H.
    rewrite (H d w Hd Hw) in Hc. discriminate. }
  exists (map snd (firstn 5 ranked)). split; [|split].
  - rewrite (ask_question_eq _ _ Hdocs Hwords).
    unfold answer_from, answer_header. fold words. fold ranked.
    apply nonempty_true_iff in Hne. rewrite Hne.
    rewrite map_map, !str_app_assoc. reflexivity.
  - rewrite length_map, length_firstn.
    destruct ranked; [congruence | cbn [List.length]; lia].
  - apply Forall_forall. intros s Hs.
    apply in_map_iff in Hs. destruct Hs as [[sc s'] [E Hin]].
    cbn [snd] in E. subst s'.
    apply in_firstn in Hin. unfold ranked in Hin.
    apply sort_desc_in in Hin. unfold retained in Hin.
    apply filter_In in Hin. destruct Hin as [Hin Hsc].
    apply in_map_iff in Hin. destruct Hin as [s' [E Hs']].
    inversion E; subst. split; [exact Hs'|].
    cbn [fst] in Hsc. unfold score in Hsc.
    rewrite count_if_positive in Hsc. apply existsb_exists in Hsc.
    destruct Hsc as [k [Hk Hck]]. now exists k.
Qed.

Lemma retained_nil (words : list text) (minScore : nat)
    (corpus : list text) :
  retained lower words minScore corpus = [] <->
  forall d, In d corpus -> score lower words d < minScore.
Proof.
  unfold retained. rewrite filter_none. split.
  - intros H d Hd.
    assert (Hin : In (score lower words d, d)
                     (map (fun s => (score lower words s, s)) corpus))
      by (apply in_map_iff; now exists d).
    specialize (H _ Hin). now apply Nat.leb_gt in H.
  - intros H [sc s] Hin. apply in_map_iff in Hin.
    destruct Hin as [d [E Hd]]. inversion E; subst.
    apply Nat.leb_gt. now apply H.
Qed.

(** X13. On a non-empty corpus the key-points summary is the bare header,
    without any sentence and without a not-found message, exactly when no
    corpus sentence contains two of the top terms. *)
Theorem key_points_bare_header (self : RAGSummarizer) :
  documents self <> [] ->
  (generate_summary word_tokenize lower isalpha_char self (T "key_points")
   = T "**KEY POINTS:**" ++ nl ++ nl
   <-> forall d, In d (documents self) ->
                 score lower (top_words word_tokenize lower isalpha_char self)
                     d < 2).
Proof.
  intro Hd. rewrite generate_summary_nonempty by exact Hd.
  cbn [eqb_str N.eqb Bool.eqb].
  rewrite key_points_eq, <- retained_nil.
  unfold key_point_sentences, numbered_list. rewrite rank_sentences_eq.
  rewrite <- (sort_desc_nil fst).
  set (ranked := Py.sort_desc fst _).
  split.
  - intro H.
    change (T "**KEY POINTS:**" ++ nl ++ nl)
      with (T "**KEY POINTS:**" ++ nl ++ nl ++ []) in H.
    do 3 apply str_app_inv_head in H.
    apply numbered_from_empty in H.
    destruct ranked; [reflexivity | discriminate].
  - intros ->. cbn [firstn map numbered_from].
    now rewrite !str_app_nil_r.
Qed.

Lemma vocabulary_matches_nil (keywords corpus : list text) :
  vocabulary_matches lower keywords corpus = [] <->
  forall d k, In d corpus -> In k keywords ->
              Py.contains k (lower d) = false.
Proof.
  unfold vocabulary_matches. rewrite filter_none. split.
  - intros H d k Hd Hk. specialize (H d Hd).
    unfold vocabulary_score in H. rewrite count_if_positive in H.
    destruct (Py.contains k (lower d)) eqn:E; [|reflexivity].
    assert (Hex : existsb (fun keyword => Py.contains keyword (lower d))
                          keywords = true)
      by (apply existsb_exists; now exists k).
    congruence.
  - intros H d Hd. unfold vocabulary_score. rewrite count_if_positive.
    destruct (existsb _ keywords) eqn:E; [|reflexivity].
    apply existsb_exists in E. destruct E as [k [Hk Hc]].
    rewrite (H d k Hd Hk) in Hc. discriminate.
Qed.

(** X14. On a non-empty corpus the methodology summary is the message "No
    clear methodology sections found in the documents." exactly when none
    of the ten methodology terms occurs in any lower-cased corpus sentence;
    likewise for the findings summary and the ten findings terms. *)
Theorem vocabulary_summary_not_found (self : RAGSummarizer) :
  documents self <> [] ->
  (generate_summary word_tokenize lower isalpha_char self (T "methodology")
   = T "No clear methodology sections found in the documents."
   <-> forall d k, In d (documents self) -> In k method_keywords ->
                   Py.contains k (lower d) = false)
  /\
  (generate_summary word_tokenize lower isalpha_char self (T "findings")
   = T "No clear findings sections found in the documents."
   <-> forall d k, In d (documents self) -> In k finding_keywords ->
                   Py.contains k (lower d) = false).
Proof.
  intro Hd. rewrite !generate_summary_nonempty by exact Hd.
  cbn [eqb_str N.eqb Bool.eqb].
  rewrite methodology_eq, findings_eq, <- !vocabulary_matches_nil.
  rewrite <- !nonempty_false_iff.
  split.
  - destruct (Py.nonempty (vocabulary_matches lower method_keywords _));
      cbn [app]; split; intro H; try reflexivity; discriminate.
  - destruct (Py.nonempty (vocabulary_matches lower finding_keywords _));
      cbn [app]; split; intro H; try reflexivity; discriminate.
Qed.

(** X15. The top terms of [_extract_key_points] are at most ten distinct
    tokens of the lower-cased text, each alphabetic in the sense of
    [str.isalpha], not a stop word and longer than three characters (code
    points). *)
Theorem top_words_are_content_words (self : RAGSummarizer) :
  List.length (top_words word_tokenize lower isalpha_char self) <= 10
  /\ NoDup (top_words word_tokenize lower isalpha_char self)
  /\ forall w,
       In w (top_words word_tokenize lower isalpha_char self) ->
       In w (word_tokenize (lower (processed_text self))) /\
       isalpha isalpha_char w = true /\
       Py.mem w (stop_words self) = false /\
       3 < List.length w.
Proof.
  change (top_words word_tokenize lower isalpha_char self)
    with (top_terms (frequency_tokens word_tokenize lower isalpha_char self)
        10).
  rewrite top_terms_firstn.
  split; [apply firstn_le_length|]. split.
  - assert (Hnd : NoDup (ranking (frequency_tokens word_tokenize lower
        isalpha_char self))).
    { apply (Permutation_NoDup (Permutation_sym (ranking_perm _))).
      apply keyword_set_NoDup. }
    rewrite <- (firstn_skipn 10 (ranking _)) in Hnd.
    exact (NoDup_app_remove_r _ _ Hnd).
  - intros w Hw. apply in_firstn in Hw.
    apply (proj1 (ranking_in _ _)) in Hw.
    unfold frequency_tokens in Hw. apply filter_In in Hw.
    destruct Hw as [Hin Hf].
    rewrite !andb_true_iff, negb_true_iff, Nat.ltb_lt in Hf.
    propositional.
Qed.

(* ================================================================== *)
(** ** Properties of the application *)
(* ================================================================== *)

Lemma process_documents_success (self : RAGSummarizer)
    (files : list UploadedFile) :
  fst (process_documents sent_tokenize self files) = true <->
  flat_map read_file files <> [].
Proof.
  rewrite process_documents_eq. cbv zeta. rewrite <- nonempty_true_iff.
  destruct (Py.nonempty (flat_map read_file files)); cbn [fst];
    split; congruence.
Qed.

(** What a call of [process_documents] keeps: the stop words, and a corpus
    of non-empty sentences on which cleaning is the identity. *)
Lemma process_documents_keeps_clean (self : RAGSummarizer)
    (files : list UploadedFile) :
  Forall (fun d => d <> [] /\ clean_sentence d = d)
         (documents self) ->
  Forall (fun d => d <> [] /\ clean_sentence d = d)
         (documents (snd (process_documents sent_tokenize self files))).
Proof.
  intro Hself. rewrite process_documents_eq. cbv zeta.
  destruct (Py.nonempty (flat_map read_file files)); [|exact Hself].
  cbn [snd documents]. apply Forall_forall. intros d Hd.
  apply in_map_iff in Hd. destruct Hd as [s [<- Hs]].
  apply filter_In in Hs. destruct Hs as [_ Hs].
  apply strip_truthy_split in Hs. split.
  - apply join_words_nonempty; [exact Hs | apply split_words].
  - rewrite clean_sentence_eq. apply normalize_normalized.
Qed.

Lemma process_documents_fails_helper (self : RAGSummarizer)
    (files : list UploadedFile) :
  (fst (process_documents sent_tokenize self files) = false <->
   flat_map read_file files = [])
  /\
  (fst (process_documents sent_tokenize self files) = false ->
   snd (process_documents sent_tokenize self files) = self).
Proof.
  rewrite process_documents_eq. cbv zeta. rewrite <- nonempty_false_iff.
  destruct (Py.nonempty (flat_map read_file files));
    cbn [fst snd]; repeat split; congruence.
Qed.

Section ApplicationFacts.

Variable dependencies_ok : bool.
Variable english : list text.

Local Abbreviation run :=
  (main word_tokenize sent_tokenize lower isalpha_char dependencies_ok english).
Local Abbreviation after :=
  (session_after word_tokenize sent_tokenize lower isalpha_char dependencies_ok
      english).

Lemma session_after_snoc (runs : list Widgets) (widgets : Widgets) :
  after (runs ++ [widgets]) = fst (run (after runs) widgets).
Proof.
  unfold after, session_after. now rewrite fold_left_app.
Qed.

(** The session state one run leaves. *)
Lemma main_state (session : SessionState) (widgets : Widgets) :
  fst (run session widgets)
  = if negb dependencies_ok then session
    else
      let rag :=
        match rag_system session with
        | Some rag => rag
        | None => new_summarizer english
        end in
      if Py.nonempty (uploaded_files widgets) && process_clicked widgets
      then
        {| rag_system :=
             Some (snd (process_documents sent_tokenize rag
                          (uploaded_files widgets)));
           documents_processed :=
             fst (process_documents sent_tokenize rag
                    (uploaded_files widgets))
             || documents_processed session |}
      else {| rag_system := Some rag;
              documents_processed := documents_processed session |}.
Proof.
  unfold run, main. destruct dependencies_ok; cbn [negb]; [|reflexivity].
  cbv zeta.
  destruct (Py.nonempty (uploaded_files widgets)); cbn [andb];
    [destruct (process_clicked widgets);
     [destruct (process_documents sent_tokenize _ (uploaded_files widgets))
        as [[] rag']|]|];
    cbn [fst snd orb documents_processed];
    destruct (documents_processed session); reflexivity.
Qed.

(** Something is shown only when the flag is set. *)
Lemma main_shown_flag (session : SessionState) (widgets : Widgets) :
  snd (run session widgets) <> [] ->
  documents_processed (fst (run session widgets)) = true.
Proof.
  unfold run, main. destruct dependencies_ok; cbn [negb];
    [|cbn [snd]; congruence].
  cbv zeta.
  match goal with
  | |- context [if documents_processed ?s then _ else _] =>
      destruct (documents_processed s) eqn:E
  end; cbn [fst snd]; [intros _; exact E | congruence].
Qed.

(** X16. Summaries and answers are shown only after a successful
    processing: if a run of [main] shows a summary or an answer, then in
    that run or in an earlier run of the session the process button was
    pressed with files of which at least one yielded a text. *)
Theorem main_shows_only_after_processing
    (runs : list Widgets) (widgets : Widgets) :
  snd (run (after runs) widgets) <> [] ->
  exists w,
    In w (runs ++ [widgets]) /\
    process_clicked w = true /\
    flat_map read_file (uploaded_files w) <> [].
Proof.
  intro H. apply main_shown_flag in H.
  rewrite <- session_after_snoc in H.
  revert H. generalize (runs ++ [widgets]). clear runs widgets.
  intro l. induction l as [|w l IH] using rev_ind.
  - cbn. discriminate.
  - rewrite session_after_snoc, main_state.
    destruct dependencies_ok; cbn [negb].
    + cbv zeta.
      destruct (Py.nonempty (uploaded_files w) && process_clicked w) eqn:E;
        cbn [documents_processed].
      * apply andb_true_iff in E. destruct E as [_ Ec].
        intro H. apply orb_true_iff in H. destruct H as [H|H].
        -- apply process_documents_success in H.
           exists w. split; [apply in_or_app; right; now left | now split].
        -- destruct (IH H) as [w' [Hin Hw']]. exists w'.
           split; [apply in_or_app; now left | exact Hw'].
      * intro H. destruct (IH H) as [w' [Hin Hw']]. exists w'.
        split; [apply in_or_app; now left | exact Hw'].
    + intro H. destruct (IH H) as [w' [Hin Hw']]. exists w'.
      split; [apply in_or_app; now left | exact Hw'].
Qed.

(** X17. Throughout a session the corpus of the summarizer consists of
    non-empty sentences on which cleaning is the identity, its stop words
    are the ones it was created with, and as long as no processing has
    succeeded the corpus is empty. *)
Theorem session_corpus_invariant (runs : list Widgets) :
  match rag_system (after runs) with
  | Some rag =>
      stop_words rag = english /\
      Forall (fun d => d <> [] /\ clean_sentence d = d)
             (documents rag) /\
      (documents_processed (after runs) = false -> documents rag = [])
  | None => documents_processed (after runs) = false
  end.
Proof.
  induction runs as [|w runs IH] using rev_ind; [reflexivity|].
  rewrite session_after_snoc, main_state.
  destruct (negb dependencies_ok); [exact IH|].
  cbv zeta.
  set (rag := match rag_system (after runs) with
              | Some rag => rag
              | None => new_summarizer english
              end).
  assert (Hrag : stop_words rag = english /\
                 Forall (fun d => d <> [] /\ clean_sentence d = d)
                        (documents rag) /\
                 (documents_processed (after runs) = false ->
                  documents rag = [])).
  { subst rag. destruct (rag_system (after runs)); [exact IH|].
    cbn. repeat split. constructor. }
  destruct Hrag as [Hsw [Hclean Hempty]].
  destruct (Py.nonempty (uploaded_files w) && process_clicked w);
    cbn [rag_system documents_processed]; [|now repeat split].
  split; [now rewrite process_documents_stop_words|].
  split; [now apply process_documents_keeps_clean|].
  intro H. apply orb_false_iff in H. destruct H as [Hf Hflag].
  rewrite (proj2 (process_documents_fails_helper _ _) Hf).
  now apply Hempty.
Qed.

(** X18. A processing that yields no text leaves the session alone, and the
    flag once set stays set: with a summarizer in the session and the flag
    set, a run in which no uploaded file yields a text keeps the session
    state, and the summary and the answer it shows come from the corpus
    processed before. *)
Theorem main_failed_processing_keeps_corpus
    (session : SessionState) (widgets : Widgets) (rag : RAGSummarizer) :
  dependencies_ok = true ->
  session = {| rag_system := Some rag; documents_processed := true |} ->
  (forall f, In f (uploaded_files widgets) -> read_file f = []) ->
  run session widgets
  = (session,
     ((if generate_clicked widgets
       then [generate_summary word_tokenize lower isalpha_char rag
                              (kind_name (summary_type widgets))]
       else [])
      ++ (if Py.truthy (question widgets) && answer_clicked widgets
          then [ask_question word_tokenize lower isalpha_char rag (question
              widgets)]
          else []))).
Proof.
  intros Hdep -> Hfail. apply flat_map_nil in Hfail.
  unfold run, main. rewrite Hdep. cbn [negb rag_system documents_processed].
  cbv zeta. rewrite process_documents_eq. cbv zeta. rewrite Hfail.
  cbn [Py.nonempty].
  destruct (Py.nonempty (uploaded_files widgets));
    [destruct (process_clicked widgets)|]; reflexivity.
Qed.

End ApplicationFacts.

Lemma starts_app (p rest : text) : Py.starts p (p ++ rest) = true.
Proof. apply starts_spec. now exists rest. Qed.

Lemma vocabulary_matches_some (keywords corpus : list text) :
  (exists d k, In d corpus /\ In k keywords /\
               Py.contains k (lower d) = true) ->
  Py.nonempty (vocabulary_matches lower keywords corpus) = true.
Proof.
  intros [d [k [Hd [Hk Hc]]]].
  destruct (Py.nonempty _) eqn:E; [reflexivity|].
  apply nonempty_false_iff in E.
  rewrite (proj1 (vocabulary_matches_nil keywords corpus) E d k Hd Hk) in Hc.
  discriminate.
Qed.

Lemma vocabulary_matches_none (keywords corpus : list text) :
  (forall d k, In d corpus -> In k keywords ->
               Py.contains k (lower d) = false) ->
  Py.nonempty (vocabulary_matches lower keywords corpus) = false.
Proof.
  intro H. now apply nonempty_false_iff, vocabulary_matches_nil.
Qed.

(** X19. On a non-empty corpus the key-points summary begins with the
    key-points header, and the comprehensive summary begins with its header
    and contains the key-points header.  The methodology summary begins
    with the methodology header when some methodology term is a substring
    of some lower-cased corpus sentence, and is the message "No clear
    methodology sections found in the documents." when none is; likewise
    the findings summary with the findings terms. *)
Theorem generate_summary_starts_with_header (self : RAGSummarizer)
    (kind : SummaryKind) :
  documents self <> [] ->
  let result :=
    generate_summary word_tokenize lower isalpha_char self (kind_name kind) in
  let matched := fun keywords =>
    exists d k, In d (documents self) /\ In k keywords /\
                Py.contains k (lower d) = true in
  let unmatched := fun keywords =>
    forall d k, In d (documents self) -> In k keywords ->
                Py.contains k (lower d) = false in
  match kind with
  | KeyPoints => Py.starts (T "**KEY POINTS:**") result = true
  | Comprehensive =>
      Py.starts (T "**COMPREHENSIVE SUMMARY**") result = true /\
      Py.contains (T "**KEY POINTS:**") result = true
  | Methodology =>
      (matched method_keywords ->
       Py.starts (T "**METHODOLOGY:**") result = true) /\
      (unmatched method_keywords ->
       result = T "No clear methodology sections found in the documents.")
  | Findings =>
      (matched finding_keywords ->
       Py.starts (T "**FINDINGS & RESULTS:**") result = true) /\
      (unmatched finding_keywords ->
       result = T "No clear findings sections found in the documents.")
  end.
Proof.
  intros Hd result matched unmatched. subst result matched unmatched.
  rewrite generate_summary_nonempty by exact Hd.
  destruct kind; cbn [kind_name eqb_str N.eqb Bool.eqb].
  - rewrite comprehensive_eq, key_points_eq. split; [apply starts_app|].
    apply contains_spec.
    exists (T "**COMPREHENSIVE SUMMARY**" ++ nl ++ nl
              ++ statistics_line (List.length (documents self))
                   (List.length (word_tokenize (processed_text self)))
              ++ T "**Overview:**" ++ nl
              ++ bulleted_list
                   (map clean_sentence (overview (documents self)))),
           (nl ++ nl
              ++ numbered_list (key_point_sentences word_tokenize lower
                     isalpha_char self)).
    now rewrite !str_app_assoc.
  - rewrite key_points_eq. apply starts_app.
  - rewrite methodology_eq. split; intro H.
    + rewrite (vocabulary_matches_some _ _ H). apply starts_app.
    + now rewrite (vocabulary_matches_none _ _ H).
  - rewrite findings_eq. split; intro H.
    + rewrite (vocabulary_matches_some _ _ H). apply starts_app.
    + now rewrite (vocabulary_matches_none _ _ H).
Qed.

End Verification.

(* ================================================================== *)
(** ** Runs of the program: witnesses and counterexamples *)
(* ================================================================== *)



(** C6 on a fresh summarizer, for each of the four kinds. *)
Lemma generate_summary_no_documents_witness :
  documents Sample.fresh = [] /\
  Forall (fun kind =>
            generate_summary Sample.word_tokenize Sample.lower
                Sample.isalpha_char Sample.fresh kind
            = T "No documents processed yet.")
         [T "key_points"; T "methodology"; T "findings"; T "comprehensive"].
Proof.
  split; [reflexivity|].
  apply Forall_forall. intros kind _.
  apply (generate_summary_no_documents Sample.word_tokenize Sample.lower
      Sample.isalpha_char Sample.fresh kind).
  reflexivity.
Defined.

(** C10 on the sample session. *)
Lemma methodology_findings_in_corpus_order_witness :
  documents Sample.session <> [] /\
  generate_summary Sample.word_tokenize Sample.lower Sample.isalpha_char
      Sample.session (T "methodology")
  = T "**METHODOLOGY:**" ++ nl ++ nl
      ++ bulleted_list
           [T "The study used a new method."; T "Data analysis showed results.";
            T "The method works."; T "The data is good."].
Proof.
  split; [discriminate|].
  refine (eq_trans
            (proj1 (methodology_findings_in_corpus_order
                      Sample.word_tokenize Sample.lower Sample.isalpha_char
                          Sample.session _)) _).
  - discriminate.
  - reflexivity.
Defined.

(** C4 on the sample session of six sentences. *)
Lemma comprehensive_summary_structure_witness :
  documents Sample.session <> [] /\
  generate_summary Sample.word_tokenize Sample.lower Sample.isalpha_char
      Sample.session (T "comprehensive")
  = T "**COMPREHENSIVE SUMMARY**" ++ nl ++ nl
      ++ T "*Document Statistics: 6 sentences, 30 words*" ++ nl ++ nl
      ++ T "**Overview:**" ++ nl
      ++ bulleted_list
           [T "The study used a new method."; T "Data analysis showed results.";
            T "The data is good."]
      ++ generate_summary Sample.word_tokenize Sample.lower Sample.isalpha_char
             Sample.session (T "key_points").
Proof.
  split; [discriminate|].
  refine (eq_trans
            (proj1 (comprehensive_summary_structure
                      Sample.word_tokenize Sample.lower Sample.isalpha_char
                          Sample.session _)) _).
  - discriminate.
  - reflexivity.
Defined.

(** C1 as amended, on the sample session: the key points are numbered. *)
Lemma summary_list_formats_witness :
  documents Sample.session <> [] /\
  generate_summary Sample.word_tokenize Sample.lower Sample.isalpha_char
      Sample.session (T "key_points")
  = T "**KEY POINTS:**" ++ nl ++ nl
      ++ numbered_list
           [T "Data analysis showed results."; T "The study used a new method.";
            T "We found strong evidence."].
Proof.
  split; [discriminate|].
  refine (eq_trans
            (proj1 (summary_list_formats
                      Sample.word_tokenize Sample.lower Sample.isalpha_char
                          Sample.session _)) _).
  - discriminate.
  - reflexivity.
Defined.

(** C1 as stated fails: on the sample session the comprehensive summary is
    not the one with a numbered overview and a bulleted key-points block;
    its overview is bulleted and its key points are numbered. *)
Lemma comprehensive_overview_not_numbered :
  (generate_summary Sample.word_tokenize Sample.lower Sample.isalpha_char
      Sample.session (T "comprehensive")
   <> comprehensive_numbered_overview Sample.word_tokenize Sample.lower
       Sample.isalpha_char Sample.session)
  /\
  generate_summary Sample.word_tokenize Sample.lower Sample.isalpha_char
      Sample.session (T "comprehensive")
  = T "**COMPREHENSIVE SUMMARY**" ++ nl ++ nl
      ++ T "*Document Statistics: 6 sentences, 30 words*" ++ nl ++ nl
      ++ T "**Overview:**" ++ nl
      ++ (bullet ++ T "The study used a new method.") ++ nl ++ nl
      ++ (bullet ++ T "Data analysis showed results.") ++ nl ++ nl
      ++ (bullet ++ T "The data is good.") ++ nl ++ nl
      ++ T "**KEY POINTS:**" ++ nl ++ nl
      ++ T "1. Data analysis showed results." ++ nl ++ nl
      ++ T "2. The study used a new method." ++ nl ++ nl
      ++ T "3. We found strong evidence." ++ nl ++ nl.
Proof.
  split; [|reflexivity].
  apply eqb_str_neq. reflexivity.
Qed.

(** C3 as amended, on the question with a repeated keyword, on a question
    whose only keyword has an accented letter, and on the empty corpus. *)
Lemma ask_question_ranked_answer_witness :
  (documents Sample.quality_session <> [] /\
   question_words Sample.word_tokenize Sample.lower Sample.isalpha_char
     Sample.quality_session (T "Is the data about data quality?") <> [] /\
   ask_question Sample.word_tokenize Sample.lower Sample.isalpha_char
     Sample.quality_session (T "Is the data about data quality?")
   = T "**Answer to: Is the data about data quality?**" ++ nl ++ nl
       ++ T "Based on the document content:" ++ nl ++ nl
       ++ numbered_list [T "Data matters."; T "Quality matters."])
  /\
  (documents Sample.cafe_session <> [] /\
   question_words Sample.word_tokenize Sample.lower Sample.isalpha_char
     Sample.cafe_session (T "Where is the " ++ Sample.CAFE ++ T "?")
   = [Sample.cafe] /\
   ask_question Sample.word_tokenize Sample.lower Sample.isalpha_char
     Sample.cafe_session (T "Where is the " ++ Sample.CAFE ++ T "?")
   = T "**Answer to: " ++ (T "Where is the " ++ Sample.CAFE ++ T "?")
       ++ T "**" ++ nl ++ nl
       ++ T "Based on the document content:" ++ nl ++ nl
       ++ numbered_list [T "The " ++ Sample.cafe ++ T " is open."])
  /\
  (documents Sample.blank_session = [] /\
   question_words Sample.word_tokenize Sample.lower Sample.isalpha_char
     Sample.blank_session (T "Is the data about data quality?") <> [] /\
   ask_question Sample.word_tokenize Sample.lower Sample.isalpha_char
     Sample.blank_session (T "Is the data about data quality?")
   = T "No documents processed yet.").
Proof.
  split; [|split].
  - split; [discriminate|]. split; [discriminate|].
    refine (eq_trans
              (proj1 (proj2 (ask_question_ranked_answer
                               Sample.word_tokenize Sample.lower
                               Sample.isalpha_char Sample.quality_session
                               (T "Is the data about data quality?") _)) _) _).
    + discriminate.
    + discriminate.
    + reflexivity.
  - split; [discriminate|]. split; [reflexivity|].
    refine (eq_trans
              (proj1 (proj2 (ask_question_ranked_answer
                               Sample.word_tokenize Sample.lower
                               Sample.isalpha_char Sample.cafe_session
                               (T "Where is the " ++ Sample.CAFE ++ T "?")
                               _)) _) _).
    + discriminate.
    + discriminate.
    + reflexivity.
  - split; [reflexivity|]. split; [discriminate|].
    refine (proj1 (ask_question_ranked_answer
                     Sample.word_tokenize Sample.lower Sample.isalpha_char
                     Sample.blank_session
                     (T "Is the data about data quality?") _) _).
    + discriminate.
    + reflexivity.
Defined.

(** C3 as stated fails twice.  The question repeats the keyword data, so
    the data sentence scores 2 and is ranked first, whereas against the
    keyword set both sentences score 1 and the quality sentence, first in
    the corpus, would come first.  And after a file of blanks has been
    processed the corpus is empty: the question has a keyword and no
    sentence reaches a score of one, yet the answer is "No documents
    processed yet." and not the message for no relevant information. *)
Lemma ask_question_counts_repeated_keywords :
  (fst (process_documents Sample.sent_tokenize Sample.fresh
          [Sample.text_file (T "blank.txt") (T "   ")]) = true /\
   documents Sample.blank_session = [] /\
   question_words Sample.word_tokenize Sample.lower Sample.isalpha_char
     Sample.blank_session (T "Is the data about data quality?")
   = [T "data"; T "data"; T "quality"] /\
   ask_question Sample.word_tokenize Sample.lower Sample.isalpha_char
     Sample.blank_session (T "Is the data about data quality?")
   = T "No documents processed yet." /\
   ask_question Sample.word_tokenize Sample.lower Sample.isalpha_char
     Sample.blank_session (T "Is the data about data quality?")
   <> T "No relevant information found for your question.") /\
  documents Sample.quality_session = [T "Quality matters."; T "Data matters."]
      /\
  question_words Sample.word_tokenize Sample.lower Sample.isalpha_char
      Sample.quality_session
    (T "Is the data about data quality?") = [T "data"; T "data"; T "quality"] /\
  ask_question Sample.word_tokenize Sample.lower Sample.isalpha_char
      Sample.quality_session
    (T "Is the data about data quality?")
  = T "**Answer to: Is the data about data quality?**" ++ nl ++ nl
      ++ T "Based on the document content:" ++ nl ++ nl
      ++ T "1. Data matters." ++ nl ++ nl
      ++ T "2. Quality matters." ++ nl ++ nl /\
  answer_by_keyword_set Sample.word_tokenize Sample.lower Sample.isalpha_char
      Sample.quality_session
    (T "Is the data about data quality?")
  = T "**Answer to: Is the data about data quality?**" ++ nl ++ nl
      ++ T "Based on the document content:" ++ nl ++ nl
      ++ T "1. Quality matters." ++ nl ++ nl
      ++ T "2. Data matters." ++ nl ++ nl /\
  ask_question Sample.word_tokenize Sample.lower Sample.isalpha_char
      Sample.quality_session
    (T "Is the data about data quality?")
  <> answer_by_keyword_set Sample.word_tokenize Sample.lower
      Sample.isalpha_char Sample.quality_session
       (T "Is the data about data quality?").
Proof.
  repeat split; try reflexivity; apply eqb_str_neq; reflexivity.
Qed.

(** C7 as amended, on the sample session and a question of stop words,
    and on a question whose keyword has an accented letter: the keyword is
    the lower-cased word. *)
Lemma ask_question_keywords_witness :
  documents Sample.session <> [] /\
  (ask_question Sample.word_tokenize Sample.lower Sample.isalpha_char
     Sample.session (T "What is the?")
   = T "Please ask a more specific question with keywords."
   <-> question_words Sample.word_tokenize Sample.lower Sample.isalpha_char
         Sample.session (T "What is the?") = []) /\
  question_words Sample.word_tokenize Sample.lower Sample.isalpha_char
    Sample.session (T "Where is the " ++ Sample.CAFE ++ T "?")
  = [Sample.cafe] /\
  (In Sample.cafe
      (question_words Sample.word_tokenize Sample.lower Sample.isalpha_char
         Sample.session (T "Where is the " ++ Sample.CAFE ++ T "?")) <->
   In Sample.cafe
      (Sample.word_tokenize
         (Sample.lower (T "Where is the " ++ Sample.CAFE ++ T "?"))) /\
   isalpha Sample.isalpha_char Sample.cafe = true /\
   Py.mem Sample.cafe (stop_words Sample.session) = false).
Proof.
  split; [discriminate|]. split; [|split; [reflexivity|]].
  - apply (proj1 (proj2 (proj2 (ask_question_keywords
                                  Sample.word_tokenize Sample.lower
                                  Sample.isalpha_char Sample.session
                                  (T "What is the?"))))).
    discriminate.
  - apply (proj1 (ask_question_keywords
                    Sample.word_tokenize Sample.lower Sample.isalpha_char
                    Sample.session
                    (T "Where is the " ++ Sample.CAFE ++ T "?"))).
Defined.

(** C7 as stated fails: after a file of blanks has been processed (the
    call succeeds) the corpus is empty, and a question without keywords is
    answered with "No documents processed yet.", not with the prompt. *)
Lemma ask_question_empty_corpus_no_prompt :
  fst (process_documents Sample.sent_tokenize Sample.fresh
         [Sample.text_file (T "blank.txt") (T "   ")]) = true /\
  documents Sample.blank_session = [] /\
  question_words Sample.word_tokenize Sample.lower Sample.isalpha_char
      Sample.blank_session (T "the") = [] /\
  ask_question Sample.word_tokenize Sample.lower Sample.isalpha_char
      Sample.blank_session (T "the")
  = T "No documents processed yet." /\
  ask_question Sample.word_tokenize Sample.lower Sample.isalpha_char
      Sample.blank_session (T "the")
  <> T "Please ask a more specific question with keywords.".
Proof.
  repeat split; try reflexivity. discriminate.
Qed.

(** C5 on a token sequence with a tie: a and b occur twice, a was met
    first; c occurs once and is left out of the top two. *)
Lemma top_terms_most_frequent_first_witness :
  top_terms [T "c"; T "a"; T "b"; T "a"; T "b"] 2 = [T "a"; T "b"] /\
  In (T "b") (top_terms [T "c"; T "a"; T "b"; T "a"; T "b"] 2) /\
  In (T "c") [T "c"; T "a"; T "b"; T "a"; T "b"] /\
  ~ In (T "c") (top_terms [T "c"; T "a"; T "b"; T "a"; T "b"] 2) /\
  ranks_before [T "c"; T "a"; T "b"; T "a"; T "b"] (T "b") (T "c").
Proof.
  assert (Hb : In (T "b") (top_terms [T "c"; T "a"; T "b"; T "a"; T "b"] 2))
    by (right; left; reflexivity).
  assert (Hc : In (T "c") [T "c"; T "a"; T "b"; T "a"; T "b"]) by (left;
      reflexivity).
  assert (Hn : ~ In (T "c") (top_terms [T "c"; T "a"; T "b"; T "a"; T "b"] 2))
    by (intros [H|[H|[]]]; discriminate H).
  split; [reflexivity|]. split; [exact Hb|]. split; [exact Hc|].
  split; [exact Hn|].
  exact (proj1 (proj2 (proj2 (proj2 (proj2 (proj2 (proj2
           (top_terms_most_frequent_first [T "c"; T "a"; T "b"; T "a"; T "b"]
               2)))))))
           (T "b") (T "c") Hb Hc Hn).
Defined.


(** X2 on a PDF whose loader raises, uploaded between the two sample
    files. *)
Lemma process_documents_skips_failed_file_witness :
  process_documents Sample.sent_tokenize Sample.fresh
    [Sample.text_file (T "study.txt")
       (T "The study used a new method.  Data analysis showed results. We found strong evidence.");
     {| name := T "broken.pdf"; pdf_pages := Raised;
        text_content := Returned (T "Not a PDF.") |};
     Sample.text_file (T "notes.txt")
       (T "The method works. The data is good. Final sentence here.")]
  = process_documents Sample.sent_tokenize Sample.fresh Sample.uploads.
Proof.
  apply (process_documents_skips_failed_file
           Sample.sent_tokenize Sample.fresh
           [Sample.text_file (T "study.txt")
              (T "The study used a new method.  Data analysis showed results. We found strong evidence.")]
           [Sample.text_file (T "notes.txt")
              (T "The method works. The data is good. Final sentence here.")]
           {| name := T "broken.pdf"; pdf_pages := Raised;
              text_content := Returned (T "Not a PDF.") |}).
  reflexivity.
Defined.

(** X3 on the two sample files. *)
Lemma processed_text_normalized_witness :
  process_documents Sample.sent_tokenize Sample.fresh Sample.uploads
  = (true, Sample.session) /\
  Py.join space (Py.split (processed_text Sample.session))
  = processed_text Sample.session /\
  Py.strip (processed_text Sample.session) = processed_text Sample.session.
Proof.
  assert (H : process_documents Sample.sent_tokenize Sample.fresh Sample.uploads
              = (true, Sample.session)) by reflexivity.
  destruct (processed_text_normalized _ _ _ _ H) as [H1 [_ H3]].
  split; [exact H|]. split; [exact H1 | exact H3].
Defined.

(** X4 on a sentence cut between two files at a no-break space
    (U+00A0). *)
Lemma process_documents_file_boundary_witness :
  Py.isspace 160%N = true /\
  process_documents Sample.sent_tokenize Sample.fresh
    [Sample.text_file (T "whole.txt")
       (T "The method" ++ 160%N :: T "works. The data is good.")]
  = process_documents Sample.sent_tokenize Sample.fresh
      [Sample.text_file (T "first.txt") (T "The method");
       Sample.text_file (T "second.txt") (T "works. The data is good.")].
Proof.
  split; [reflexivity|].
  apply (process_documents_file_boundary
           Sample.sent_tokenize Sample.fresh
           [Sample.text_file (T "whole.txt")
              (T "The method" ++ 160%N :: T "works. The data is good.")]
           [Sample.text_file (T "first.txt") (T "The method");
            Sample.text_file (T "second.txt") (T "works. The data is good.")]
           [] [] (T "The method") (T "works. The data is good.") 160%N);
    reflexivity.
Defined.

(** X5 on the sample files: processing the second upload after the first
    gives what the second gives alone. *)
Lemma process_documents_replaces_corpus_witness :
  fst (process_documents Sample.sent_tokenize Sample.fresh
         [Sample.text_file (T "quality.txt")
             (T "Quality matters. Data matters.")])
  = true /\
  process_documents Sample.sent_tokenize Sample.session
    [Sample.text_file (T "quality.txt") (T "Quality matters. Data matters.")]
  = (true, Sample.quality_session).
Proof.
  split; [reflexivity|].
  refine (eq_trans
            (proj1 (process_documents_replaces_corpus
                      Sample.sent_tokenize Sample.fresh Sample.uploads
                      [Sample.text_file (T "quality.txt")
                         (T "Quality matters. Data matters.")]) _) _);
    reflexivity.
Defined.

(** X6 on a file of blanks. *)
Lemma process_documents_blank_texts_witness :
  process_documents Sample.sent_tokenize Sample.fresh
    [Sample.text_file (T "blank.txt") (T "   ")]
  = (true, {| documents := []; processed_text := [];
              stop_words := stop_words Sample.fresh |}).
Proof.
  refine (proj1 (process_documents_blank_texts
                   Sample.word_tokenize Sample.sent_tokenize Sample.lower
                       Sample.isalpha_char Sample.fresh
                   [Sample.text_file (T "blank.txt") (T "   ")] _ _ _)).
  - reflexivity.
  - discriminate.
  - intros t [<-|[]]. reflexivity.
Defined.

(** X8 on the two sample files. *)
Lemma corpus_sentences_are_clean_witness :
  process_documents Sample.sent_tokenize Sample.fresh Sample.uploads
  = (true, Sample.session) /\
  map clean_sentence (documents Sample.session) = documents Sample.session.
Proof.
  assert (H : process_documents Sample.sent_tokenize Sample.fresh Sample.uploads
              = (true, Sample.session)) by reflexivity.
  split; [exact H|].
  exact (corpus_sentences_are_clean _ _ _ _ H).
Defined.

(** X9 on reordered keywords. *)
Lemma score_bounded_order_insensitive_witness :
  Permutation [T "cat"; T "dog"] [T "dog"; T "cat"] /\
  score Sample.lower [T "dog"; T "cat"] (T "The Cat and the DOG played.")
  = score Sample.lower [T "cat"; T "dog"] (T "The Cat and the DOG played.").
Proof.
  assert (H : Permutation [T "cat"; T "dog"] [T "dog"; T "cat"])
    by apply perm_swap.
  split; [exact H|].
  exact (proj1 (proj2
           (score_bounded_order_insensitive Sample.lower
              [T "cat"; T "dog"] (T "The Cat and the DOG played.")))
           [T "dog"; T "cat"] H).
Defined.

(** X10 on the cat-and-dog corpus. *)
Lemma rank_sentences_best_first_witness :
  rank_sentences Sample.lower [T "cat"; T "dog"] (fun score => (1 <=?
      score)%nat)
    [T "The cat sat on the mat."; T "Dogs are loyal animals.";
     T "The cat and the dog played."]
  = [(2, T "The cat and the dog played."); (1, T "The cat sat on the mat.");
     (1, T "Dogs are loyal animals.")] /\
  forall sentence,
    In sentence [T "The cat sat on the mat."; T "Dogs are loyal animals.";
                 T "The cat and the dog played."] ->
    score Sample.lower [T "cat"; T "dog"] sentence <= 2.
Proof.
  assert (H : rank_sentences Sample.lower [T "cat"; T "dog"] (fun score => (1
      <=? score)%nat)
                [T "The cat sat on the mat."; T "Dogs are loyal animals.";
                 T "The cat and the dog played."]
              = [(2, T "The cat and the dog played.");
                 (1, T "The cat sat on the mat.");
                 (1, T "Dogs are loyal animals.")]) by reflexivity.
  split; [exact H|].
  exact (proj1 (proj2 (proj2 (rank_sentences_best_first _ _ _ _ _ _ _ H)))).
Defined.

(** X12 on a question in capitals whose keyword has an accented letter. *)
Lemma ask_question_lists_matching_sentences_witness :
  exists listed : list text,
    ask_question Sample.word_tokenize Sample.lower Sample.isalpha_char
      Sample.cafe_session (T "Where is the " ++ Sample.CAFE ++ T "?")
    = T "**Answer to: " ++ (T "Where is the " ++ Sample.CAFE ++ T "?")
        ++ T "**" ++ nl ++ nl
        ++ T "Based on the document content:" ++ nl ++ nl
        ++ numbered_list (map clean_sentence listed)
    /\ 1 <= List.length listed <= 5
    /\ Forall (fun sentence =>
                 In sentence (documents Sample.cafe_session) /\
                 exists w,
                   In w (question_words Sample.word_tokenize Sample.lower
                           Sample.isalpha_char Sample.cafe_session
                           (T "Where is the " ++ Sample.CAFE ++ T "?")) /\
                   Py.contains (Sample.lower w) (Sample.lower sentence)
                   = true)
              listed.
Proof.
  apply (ask_question_lists_matching_sentences
           Sample.word_tokenize Sample.lower Sample.isalpha_char
           Sample.cafe_session (T "Where is the " ++ Sample.CAFE ++ T "?")).
  exists (T "The " ++ Sample.cafe ++ T " is open."), Sample.cafe.
  split; [vm_compute; tauto|].
  split; [vm_compute; tauto | vm_compute; reflexivity].
Defined.

(** X13 on a corpus without any top term. *)
Lemma key_points_bare_header_witness :
  documents Sample.short_session <> [] /\
  generate_summary Sample.word_tokenize Sample.lower Sample.isalpha_char
      Sample.short_session (T "key_points")
  = T "**KEY POINTS:**" ++ nl ++ nl.
Proof.
  split; [discriminate|].
  apply (proj2 (key_points_bare_header
                  Sample.word_tokenize Sample.lower Sample.isalpha_char
                      Sample.short_session
                  ltac:(discriminate))).
  intros d Hd. vm_compute in Hd.
  destruct Hd as [<-|[<-|[]]]; vm_compute; lia.
Defined.

(** X14 on a corpus without findings terms. *)
Lemma vocabulary_summary_not_found_witness :
  documents Sample.quality_session <> [] /\
  generate_summary Sample.word_tokenize Sample.lower Sample.isalpha_char
      Sample.quality_session (T "findings")
  = T "No clear findings sections found in the documents.".
Proof.
  split; [discriminate|].
  apply (proj2 (proj2 (vocabulary_summary_not_found
                         Sample.word_tokenize Sample.lower Sample.isalpha_char
                             Sample.quality_session
                         ltac:(discriminate)))).
  intros d k Hd Hk. vm_compute in Hd. vm_compute in Hk.
  destruct Hd as [<-|[<-|[]]];
    repeat (destruct Hk as [<-|Hk]; [vm_compute; reflexivity|]);
    destruct Hk.
Defined.

(** X15 on the session with the accented word, which is a top term: its
    four characters are letters. *)
Lemma top_words_are_content_words_witness :
  top_words Sample.word_tokenize Sample.lower Sample.isalpha_char
    Sample.cafe_session
  = [Sample.cafe; T "open"; T "data"; T "matters"] /\
  isalpha Sample.isalpha_char Sample.cafe = true /\
  Py.mem Sample.cafe (stop_words Sample.cafe_session) = false /\
  3 < List.length Sample.cafe.
Proof.
  assert (H : top_words Sample.word_tokenize Sample.lower Sample.isalpha_char
                Sample.cafe_session
              = [Sample.cafe; T "open"; T "data"; T "matters"])
    by reflexivity.
  split; [exact H|].
  refine (proj2 (proj2 (proj2 (top_words_are_content_words
                                 Sample.word_tokenize Sample.lower
                                 Sample.isalpha_char Sample.cafe_session))
                       Sample.cafe _)).
  rewrite H. now left.
Defined.

(** X1 on an upload whose only file cannot be loaded. *)
Lemma process_documents_fails_iff_no_text_witness :
  fst (process_documents Sample.sent_tokenize Sample.session
         (uploaded_files SampleRuns.broken_run)) = false /\
  snd (process_documents Sample.sent_tokenize Sample.session
         (uploaded_files SampleRuns.broken_run)) = Sample.session.
Proof.
  assert (H : fst (process_documents Sample.sent_tokenize Sample.session
                     (uploaded_files SampleRuns.broken_run)) = false)
    by reflexivity.
  split; [exact H|].
  exact (proj1 (proj2 (process_documents_fails_iff_no_text
                         Sample.sent_tokenize Sample.session
                         (uploaded_files SampleRuns.broken_run))) H).
Defined.

(** X11 on a question whose keywords do not occur in the corpus. *)
Lemma ask_question_fixed_messages_witness :
  ask_question Sample.word_tokenize Sample.lower Sample.isalpha_char
      Sample.session
    (T "What is the capital of France?")
  = T "No relevant information found for your question.".
Proof.
  apply (proj2 (proj2 (ask_question_fixed_messages
                         Sample.word_tokenize Sample.lower Sample.isalpha_char
                             Sample.session
                         (T "What is the capital of France?")))).
  split; [discriminate|]. split; [discriminate|].
  intros d w Hd Hw. vm_compute in Hd. vm_compute in Hw.
  repeat (destruct Hd as [<-|Hd];
          [repeat (destruct Hw as [<-|Hw]; [vm_compute; reflexivity|]);
           destruct Hw|]).
  destruct Hd.
Defined.

(** X16 on a session in which the sample files are processed and the
    findings summary is then requested. *)
Lemma main_shows_only_after_processing_witness :
  snd (SampleRuns.run (SampleRuns.after [SampleRuns.process_run])
                      SampleRuns.findings_run) <> [] /\
  exists w,
    In w [SampleRuns.process_run; SampleRuns.findings_run] /\
    process_clicked w = true /\
    flat_map read_file (uploaded_files w) <> [].
Proof.
  assert (H : snd (SampleRuns.run (SampleRuns.after [SampleRuns.process_run])
                                  SampleRuns.findings_run) <> [])
    by (vm_compute; discriminate).
  split; [exact H|].
  exact (main_shows_only_after_processing
           Sample.word_tokenize Sample.sent_tokenize Sample.lower
               Sample.isalpha_char true
           Sample.english_stop_words
           [SampleRuns.process_run] SampleRuns.findings_run H).
Defined.

(** X17 on a session in which nothing has been processed yet. *)
Lemma session_corpus_invariant_witness :
  documents_processed (SampleRuns.after [SampleRuns.idle;
      SampleRuns.broken_run])
  = false /\
  exists rag,
    rag_system (SampleRuns.after [SampleRuns.idle; SampleRuns.broken_run])
    = Some rag /\ documents rag = [].
Proof.
  assert (Hflag : documents_processed
                    (SampleRuns.after [SampleRuns.idle; SampleRuns.broken_run])
                  = false) by reflexivity.
  split; [exact Hflag|].
  pose proof (session_corpus_invariant
                Sample.word_tokenize Sample.sent_tokenize Sample.lower
                    Sample.isalpha_char true
                Sample.english_stop_words
                [SampleRuns.idle; SampleRuns.broken_run]) as H.
  fold (SampleRuns.after [SampleRuns.idle; SampleRuns.broken_run]) in H.
  destruct (rag_system
              (SampleRuns.after [SampleRuns.idle; SampleRuns.broken_run]))
    as [rag|] eqn:E; [|vm_compute in E; discriminate E].
  exists rag. split; [reflexivity|].
  destruct H as [_ [_ H]]. exact (H Hflag).
Defined.

(** X18 on a session with the sample corpus in which a PDF that cannot be
    loaded is processed: the findings shown are those of the sample
    corpus. *)
Lemma main_failed_processing_keeps_corpus_witness :
  SampleRuns.run
    {| rag_system := Some Sample.session; documents_processed := true |}
    SampleRuns.broken_run
  = ({| rag_system := Some Sample.session; documents_processed := true |},
     [(T "**FINDINGS & RESULTS:**") ++ nl ++ nl
        ++ bulleted_list [T "Data analysis showed results.";
                          T "We found strong evidence."]]).
Proof.
  refine (eq_trans
            (main_failed_processing_keeps_corpus
               Sample.word_tokenize Sample.sent_tokenize Sample.lower
                   Sample.isalpha_char true
               Sample.english_stop_words
               {| rag_system := Some Sample.session;
                  documents_processed := true |}
               SampleRuns.broken_run Sample.session
               eq_refl eq_refl _) _).
  - intros f [<-|[]]. reflexivity.
  - reflexivity.
Defined.

(** X19 on the sample session, whose first sentence has the methodology
    term study. *)
Lemma generate_summary_starts_with_header_witness :
  documents Sample.session <> [] /\
  In (T "The study used a new method.") (documents Sample.session) /\
  In (T "study") method_keywords /\
  Py.contains (T "study") (Sample.lower (T "The study used a new method."))
  = true /\
  Py.starts (T "**METHODOLOGY:**")
    (generate_summary Sample.word_tokenize Sample.lower Sample.isalpha_char
       Sample.session (T "methodology"))
  = true.
Proof.
  assert (Hd : In (T "The study used a new method.")
                  (documents Sample.session)) by (vm_compute; tauto).
  assert (Hk : In (T "study") method_keywords) by (vm_compute; tauto).
  assert (Hc : Py.contains (T "study")
                 (Sample.lower (T "The study used a new method.")) = true)
    by reflexivity.
  split; [discriminate|]. split; [exact Hd|]. split; [exact Hk|].
  split; [exact Hc|].
  apply (proj1 (generate_summary_starts_with_header
                  Sample.word_tokenize Sample.lower Sample.isalpha_char
                  Sample.session Methodology ltac:(discriminate))).
  exists (T "The study used a new method."), (T "study").
  split; [exact Hd|]. split; [exact Hk | exact Hc].
Defined.
